(** * Jens Platform IFC export scripts: a shallow embedding

    The repository holds two top-level IronPython scripts that drive the
    Revit IFC exporter:

    - [server/revit-ifc/export_ifc.py]      (pyRevit, interactive host)
    - [server/revit-ifc/rbp_export_ifc.py]  (RevitBatchProcessor, batch host)

    Both are straight-line programs: they read an optional [params.json]
    next to the input document, build an [IFCExportOptions] object, work
    out the output directory and file name, print a fixed sequence of
    status lines and call [doc.Export] inside a transaction that is rolled
    back.

    The embedding keeps the scripts' variable names.  Python values are a
    small inductive type, exceptions are an explicit error result, and the
    printed lines together with the document's transaction state are
    threaded through a state-and-exception monad.  The host is a
    parameter of a run: a run starts with an active document, and the host
    decides whether the document accepts a transaction and what
    [doc.Export] returns or raises. *)

From Stdlib Require Import String Ascii List ZArith Bool Lia.
Import ListNotations.

Local Open Scope string_scope.
Local Open Scope list_scope.

(** Python's [+] on two [str] objects. *)
Infix "+++" := String.append (right associativity, at level 60).

(* ====================================================================== *)
(** * Python values and exceptions *)
(* ====================================================================== *)

(** What [json.load] can return: [None], booleans, integers, floats (kept
    as the literal that was read), strings, lists and dicts.  A dict is an
    association list in lookup order. *)
#[warnings="-register-all"]
Inductive value : Type :=
| VNone
| VBool (b : bool)
| VInt (n : Z)
| VFloat (literal : string)
| VStr (s : string)
| VList (items : list value)
| VDict (entries : list (string * value)).

(** The exception classes the scripts can meet; each carries [str(ex)]. *)
Inductive exn : Type :=
| AttributeError (msg : string)
| TypeError (msg : string)
| ValueError (msg : string)
| IOError (msg : string)
| HostException (msg : string).

(** [str(ex)] *)
Definition str (ex : exn) : string :=
  match ex with
  | AttributeError msg | TypeError msg | ValueError msg
  | IOError msg | HostException msg => msg
  end.

Inductive result (A : Type) : Type :=
| Ok (a : A)
| Raise (ex : exn).
Arguments Ok {A} a.
Arguments Raise {A} ex.

(** [type(v).__name__] as it appears in Python's error messages. *)
Definition type_name (v : value) : string :=
  match v with
  | VNone => "NoneType"
  | VBool _ => "bool"
  | VInt _ => "int"
  | VFloat _ => "float"
  | VStr _ => "unicode"
  | VList _ => "list"
  | VDict _ => "dict"
  end.

(** Lookup in a dict's entries. *)
Fixpoint lookup (key : string) (entries : list (string * value)) : option value :=
  match entries with
  | [] => None
  | (k, v) :: rest => if String.eqb k key then Some v else lookup key rest
  end.

(** [obj.get(key, default)]: defined on dicts only; every other JSON value
    has no attribute [get]. *)
Definition py_get (obj : value) (key : string) (default : value) : result value :=
  match obj with
  | VDict entries =>
      Ok (match lookup key entries with Some v => v | None => default end)
  | _ => Raise (AttributeError
                  ("'" +++ type_name obj +++ "' object has no attribute 'get'"))
  end.

(** [prefix + v] with [prefix] a [str]: only a string can be appended. *)
Definition py_concat (prefix : string) (v : value) : result string :=
  match v with
  | VStr s => Ok (prefix +++ s)
  | _ => Raise (TypeError
                  ("cannot concatenate 'str' and '" +++ type_name v +++ "' objects"))
  end.

(** Lists and dicts are unhashable; everything else can be a dict key. *)
Definition hashable (v : value) : bool :=
  match v with
  | VList _ | VDict _ => false
  | _ => true
  end.

(** Truth value of a string and of an optional string ([None] or [str]). *)
Definition truthy (s : string) : bool := negb (String.eqb s "").

Definition truthy_opt (o : option string) : bool :=
  match o with
  | Some s => truthy s
  | None => false
  end.

(* ====================================================================== *)
(** * [os.path] *)
(* ====================================================================== *)

(** [os.path] is chosen by the platform: [ntpath] on Windows, where Revit
    runs, and [posixpath] elsewhere.  The scripts use four of its
    functions and are embedded over this interface; both modules are
    given below as instances. *)
Class OsPath : Type := {
  dirname : string -> string;
  basename : string -> string;
  splitext : string -> string * string;
  join : string -> string -> string;
  (** the characters that end a directory or drive component *)
  separators : list ascii
}.

(** A file name is bare when it holds no separator of the platform. *)
Fixpoint occurs (c : ascii) (s : string) : bool :=
  match s with
  | EmptyString => false
  | String a rest => Ascii.eqb a c || occurs c rest
  end.

Definition bare `{OsPath} (name : string) : bool :=
  forallb (fun c => negb (occurs c name)) separators.

(** What the scripts rely on for a bare name. *)
Class OsPathLaws (P : OsPath) : Prop := {
  dirname_bare : forall name, bare name = true -> dirname name = "";
  basename_bare : forall name, bare name = true -> basename name = name;
  join_empty : forall name, bare name = true -> join "" name = name
}.

(** ** String primitives of Python used by [posixpath] and [genericpath] *)

(** [s.rfind(c)] for a one-character [c]: the highest index, or [-1]. *)
Fixpoint rfind_from (c : ascii) (s : string) (i last : Z) : Z :=
  match s with
  | EmptyString => last
  | String a rest => rfind_from c rest (i + 1) (if Ascii.eqb a c then i else last)
  end.

Definition rfind (c : ascii) (s : string) : Z := rfind_from c s 0 (-1).

(** [s[:i]] and [s[i:]] for [0 <= i]. *)
Definition slice_to (i : Z) (s : string) : string :=
  substring 0 (Z.to_nat i) s.

Definition slice_from (i : Z) (s : string) : string :=
  substring (Z.to_nat i) (String.length s - Z.to_nat i) s.

(** [s.rstrip(c)] *)
Fixpoint rstrip (c : ascii) (s : string) : string :=
  match s with
  | EmptyString => EmptyString
  | String a rest =>
      match rstrip c rest with
      | EmptyString => if Ascii.eqb a c then EmptyString else String a EmptyString
      | kept => String a kept
      end
  end.

(** [s == c * len(s)] *)
Fixpoint all_char (c : ascii) (s : string) : bool :=
  match s with
  | EmptyString => true
  | String a rest => Ascii.eqb a c && all_char c rest
  end.

(** [s.startswith(c)] and [s.endswith(c)] for a one-character [c]. *)
Definition startswith_char (c : ascii) (s : string) : bool :=
  match s with
  | String a _ => Ascii.eqb a c
  | EmptyString => false
  end.

Fixpoint endswith_char (c : ascii) (s : string) : bool :=
  match s with
  | EmptyString => false
  | String a EmptyString => Ascii.eqb a c
  | String _ rest => endswith_char c rest
  end.

(** ** [genericpath._splitext] *)

(** The [while filenameIndex < dotIndex] loop: [true] when a character
    other than [extsep] is met (the function returns the split there),
    [false] when the loop runs out. *)
Fixpoint splitext_scan (p : string) (extsep : ascii)
         (filenameIndex : Z) (steps : nat) : bool :=
  match steps with
  | O => false
  | S steps' =>
      match String.get (Z.to_nat filenameIndex) p with
      | Some a =>
          if Ascii.eqb a extsep
          then splitext_scan p extsep (filenameIndex + 1) steps'
          else true
      | None => true
      end
  end.

Definition _splitext (p : string) (sep : ascii) (altsep : option ascii)
           (extsep : ascii) : string * string :=
  let sepIndex := rfind sep p in
  let sepIndex :=
    match altsep with
    | Some alt => Z.max sepIndex (rfind alt p)
    | None => sepIndex
    end in
  let dotIndex := rfind extsep p in
  if (sepIndex <? dotIndex)%Z
     && splitext_scan p extsep (sepIndex + 1) (Z.to_nat (dotIndex - (sepIndex + 1)))
  then (slice_to dotIndex p, slice_from dotIndex p)
  else (p, "").

(** ** [posixpath] *)

Module posixpath.

Definition sep : ascii := "/"%char.
Definition extsep : ascii := "."%char.

Definition split (p : string) : string * string :=
  let i := (rfind sep p + 1)%Z in
  let head := slice_to i p in
  let tail := slice_from i p in
  let head := if truthy head && negb (all_char sep head)
              then rstrip sep head else head in
  (head, tail).

Definition dirname (p : string) : string := fst (split p).

Definition basename (p : string) : string :=
  slice_from (rfind sep p + 1) p.

Definition splitext (p : string) : string * string :=
  _splitext p sep None extsep.

Definition join (a b : string) : string :=
  if startswith_char sep b then b
  else if negb (truthy a) || endswith_char sep a then a +++ b
  else a +++ String sep b.

End posixpath.

(** ** [ntpath], as in the CPython 2.7 library that IronPython 2.7 ships *)

(** [a in cs] for a character and a string of candidates. *)
Definition char_in (cs : list ascii) (a : ascii) : bool :=
  existsb (Ascii.eqb a) cs.

(** [s.replace(old, new)] for one-character [old] and [new]. *)
Fixpoint replace_char (old new : ascii) (s : string) : string :=
  match s with
  | EmptyString => EmptyString
  | String a rest =>
      String (if Ascii.eqb a old then new else a) (replace_char old new rest)
  end.

(** [s.find(c, start)]: the lowest index at or after [start], or [-1]. *)
Fixpoint find_from (c : ascii) (s : string) (i start : Z) : Z :=
  match s with
  | EmptyString => (-1)%Z
  | String a rest =>
      if (start <=? i)%Z && Ascii.eqb a c then i
      else find_from c rest (i + 1) start
  end.

Definition find_char (c : ascii) (s : string) (start : Z) : Z :=
  find_from c s 0 start.

(** [s[i:j]] for [0 <= i <= j]. *)
Definition slice (i j : nat) (s : string) : string := substring i (j - i) s.

(** [s.lower()] on ASCII letters. *)
Definition lower_char (a : ascii) : ascii :=
  let n := nat_of_ascii a in
  if (65 <=? n)%nat && (n <=? 90)%nat then ascii_of_nat (n + 32) else a.

Fixpoint lower (s : string) : string :=
  match s with
  | EmptyString => EmptyString
  | String a rest => String (lower_char a) (lower rest)
  end.

(** The index just after the last character of [s] that is in [cs], or
    [last] when there is none: where the loop
    [while i and p[i-1] not in cs: i = i - 1] stops. *)
Fixpoint after_last_from (cs : list ascii) (s : string) (i last : Z) : Z :=
  match s with
  | EmptyString => last
  | String a rest =>
      after_last_from cs rest (i + 1) (if char_in cs a then (i + 1)%Z else last)
  end.

(** Dropping the trailing characters that are in [cs]. *)
Fixpoint rstrip_any (cs : list ascii) (s : string) : string :=
  match s with
  | EmptyString => EmptyString
  | String a rest =>
      match rstrip_any cs rest with
      | EmptyString => if char_in cs a then EmptyString else String a EmptyString
      | kept => String a kept
      end
  end.

(** [s[0] in cs] and [s[-1] in cs] for a string that may be empty. *)
Definition starts_in (cs : list ascii) (s : string) : bool :=
  match s with
  | String a _ => char_in cs a
  | EmptyString => false
  end.

Fixpoint ends_in (cs : list ascii) (s : string) : bool :=
  match s with
  | EmptyString => false
  | String a EmptyString => char_in cs a
  | String _ rest => ends_in cs rest
  end.

Module ntpath.

Definition sep : ascii := "\"%char.
Definition altsep : ascii := "/"%char.
Definition extsep : ascii := "."%char.
Definition colon : ascii := ":"%char.
Definition seps : list ascii := [sep; altsep].

Definition splitdrive (p : string) : string * string :=
  if (1 <? String.length p)%nat then
    let normp := replace_char altsep sep p in
    if String.eqb (slice 0 2 normp) (String sep (String sep ""))
       && negb (String.eqb (slice 2 3 normp) (String sep ""))
    then
      let index := find_char sep normp 2 in
      if (index =? -1)%Z then ("", p)
      else
        let index2 := find_char sep normp (index + 1) in
        if (index2 =? index + 1)%Z then ("", p)
        else
          let index2 :=
            if (index2 =? -1)%Z then Z.of_nat (String.length p) else index2 in
          (slice_to index2 p, slice_from index2 p)
    else if String.eqb (slice 1 2 normp) (String colon "")
    then (slice_to 2 p, slice_from 2 p)
    else ("", p)
  else ("", p).

Definition split (p : string) : string * string :=
  let '(d, p) := splitdrive p in
  let i := after_last_from seps p 0 0 in
  let head := slice_to i p in
  let tail := slice_from i p in
  let head2 := rstrip_any seps head in
  let head := if truthy head2 then head2 else head in
  (d +++ head, tail).

Definition dirname (p : string) : string := fst (split p).

Definition basename (p : string) : string := snd (split p).

Definition splitext (p : string) : string * string :=
  _splitext p sep (Some altsep) extsep.

(** [join(path, p)] with one more component: one turn of the loop. *)
Definition join (path p : string) : string :=
  let '(result_drive, result_path) := splitdrive path in
  let '(p_drive, p_path) := splitdrive p in
  let '(result_drive, result_path) :=
    if truthy p_path && starts_in seps p_path then
      (if truthy p_drive || negb (truthy result_drive)
       then p_drive else result_drive,
       p_path)
    else if truthy p_drive && negb (String.eqb p_drive result_drive)
            && negb (String.eqb (lower p_drive) (lower result_drive)) then
      (p_drive, p_path)
    else
      let result_drive :=
        if truthy p_drive && negb (String.eqb p_drive result_drive)
        then p_drive else result_drive in
      let result_path :=
        if truthy result_path && negb (ends_in seps result_path)
        then result_path +++ String sep "" else result_path in
      (result_drive, result_path +++ p_path) in
  if truthy result_path && negb (starts_in seps result_path)
     && truthy result_drive && negb (endswith_char colon result_drive)
  then result_drive +++ String sep result_path
  else result_drive +++ result_path.

End ntpath.

Definition nt : OsPath := {|
  dirname := ntpath.dirname;
  basename := ntpath.basename;
  splitext := ntpath.splitext;
  join := ntpath.join;
  separators := [ntpath.sep; ntpath.altsep; ntpath.colon]
|}.

#[export] Instance posix : OsPath := {
  dirname := posixpath.dirname;
  basename := posixpath.basename;
  splitext := posixpath.splitext;
  join := posixpath.join;
  separators := [posixpath.sep]
}.

(* ====================================================================== *)
(** * The host: Revit API objects *)
(* ====================================================================== *)

(** [Autodesk.Revit.DB.IFCVersion]: the two members the scripts name, and
    the value a fresh [IFCExportOptions] starts with. *)
Inductive IFCVersion : Type :=
| Default
| IFC2x3CV2
| IFC4.

(** [Autodesk.Revit.DB.IFCExportOptions].  The two flags hold the Python
    value the script assigns to them; [AddOption] calls are kept in call
    order. *)
Record IFCExportOptions : Type := mkOptions {
  FileVersion : IFCVersion;
  WallAndColumnSplitting : value;
  ExportBaseQuantities : value;
  AddedOptions : list (string * string)
}.

(** [IFCExportOptions()] *)
Definition new_IFCExportOptions : IFCExportOptions :=
  mkOptions Default (VBool false) (VBool false) [].

Definition set_FileVersion (v : IFCVersion) (o : IFCExportOptions) :=
  mkOptions v (WallAndColumnSplitting o) (ExportBaseQuantities o) (AddedOptions o).

Definition set_WallAndColumnSplitting (v : value) (o : IFCExportOptions) :=
  mkOptions (FileVersion o) v (ExportBaseQuantities o) (AddedOptions o).

Definition set_ExportBaseQuantities (v : value) (o : IFCExportOptions) :=
  mkOptions (FileVersion o) (WallAndColumnSplitting o) v (AddedOptions o).

Definition AddOption (name val : string) (o : IFCExportOptions) :=
  mkOptions (FileVersion o) (WallAndColumnSplitting o) (ExportBaseQuantities o)
            (AddedOptions o ++ [(name, val)]).

(** The content of the Revit model, as the list of its elements. *)
Definition Model : Type := list string.

(** [Autodesk.Revit.DB.TransactionStatus] *)
Inductive TransactionStatus : Type :=
| Uninitialized
| Started
| RolledBack
| Committed.

(** What the host decides during one run: whether the document accepts a
    transaction, and what [doc.Export] does.  [Export] runs inside the open
    transaction: it sees the transaction's working copy of the model and
    may change it, and it either returns a flag or raises. *)
Record Host : Type := mkHost {
  accepts_transaction : bool;
  Export : value -> value -> IFCExportOptions -> Model -> result bool * Model
}.

(** One call of [doc.Export] as the host received it. *)
Record ExportCall : Type := mkCall {
  call_folder : value;
  call_name : value;
  call_options : IFCExportOptions
}.

(** The part of the world a script changes: the lines written so far
    (oldest first), the model as saved in the document, the working copy
    of the open transaction if there is one, the status of the script's
    transaction object, and the calls of [doc.Export] the host has
    received (oldest first). *)
Record World : Type := mkWorld {
  stdout : list string;
  persisted : Model;
  working : option Model;
  status : TransactionStatus;
  exports : list ExportCall
}.

(** A script statement: it may change the world and either yields a value
    or raises.  The world is kept when an exception is raised. *)
Definition M (A : Type) : Type := World -> result A * World.

Definition ret {A} (a : A) : M A := fun w => (Ok a, w).

Definition bind {A B} (m : M A) (k : A -> M B) : M B :=
  fun w =>
    match m w with
    | (Ok a, w') => k a w'
    | (Raise ex, w') => (Raise ex, w')
    end.

Definition lift {A} (r : result A) : M A := fun w => (r, w).

Notation "x <- m ;; k" := (bind m (fun x => k))
  (at level 61, m at next level, right associativity).
Notation "m ;; k" := (bind m (fun _ => k))
  (at level 61, right associativity).

(** [try: body  except Exception as ex: handler] *)
Definition try_except {A} (body : M A) (handler : exn -> M A) : M A :=
  fun w =>
    match body w with
    | (Ok a, w') => (Ok a, w')
    | (Raise ex, w') => handler ex w'
    end.

(** [print(line)] in pyRevit, [Output(line)] in RevitBatchProcessor. *)
Definition print (line : string) : M unit :=
  fun w => (Ok tt, mkWorld (stdout w ++ [line]) (persisted w) (working w)
                           (status w) (exports w)).

(** ** [Transaction] *)

(** [t.Start()] *)
Definition Start (h : Host) : M unit :=
  fun w =>
    match accepts_transaction h, working w with
    | true, None =>
        (Ok tt, mkWorld (stdout w) (persisted w) (Some (persisted w)) Started
                        (exports w))
    | _, _ =>
        (Raise (HostException "Cannot start the transaction"), w)
    end.

(** Dropping the working copy. *)
Definition discard (w : World) : World :=
  mkWorld (stdout w) (persisted w) None RolledBack (exports w).

(** [t.RollBack()] *)
Definition RollBack : M unit :=
  fun w =>
    match status w with
    | Started => (Ok tt, discard w)
    | _ => (Raise (HostException "The transaction has not been started"), w)
    end.

(** [t.Commit()].  Neither script calls it; it is the one operation of
    the host that writes the working copy into the document. *)
Definition Commit : M unit :=
  fun w =>
    match status w, working w with
    | Started, Some m => (Ok tt, mkWorld (stdout w) m None Committed (exports w))
    | _, _ => (Raise (HostException "The transaction has not been started"), w)
    end.

(** [t.Dispose()]: a transaction still open is rolled back. *)
Definition Dispose (w : World) : World :=
  match status w with
  | Started => discard w
  | _ => w
  end.

(** [with Transaction(doc, name) as t: body].  The object is created, the
    body runs, and [Dispose] is called however the body ends; an exception
    of the body is raised again. *)
Definition with_Transaction {A} (body : M A) : M A :=
  fun w =>
    let created :=
      mkWorld (stdout w) (persisted w) (working w) Uninitialized (exports w) in
    match body created with
    | (r, w') => (r, Dispose w')
    end.

(** [doc.Export(folder, name, options)] *)
Definition doc_Export (h : Host) (folder name : value) (options : IFCExportOptions)
  : M bool :=
  fun w =>
    match working w with
    | Some m =>
        match Export h folder name options m with
        | (r, m') =>
            (r, mkWorld (stdout w) (persisted w) (Some m') (status w)
                        (exports w ++ [mkCall folder name options]))
        end
    | None =>
        (Raise (HostException "Document is not modifiable"), w)
    end.

(** ** The file system *)

(** What the script finds at a path: nothing ([None]), or a file for
    which [json.load(open(path))] returns a value or raises. *)
Definition FileSystem : Type := string -> option (result value).

(** [os.path.exists(path)] *)
Definition exists_ (fs : FileSystem) (path : string) : bool :=
  match fs path with
  | Some _ => true
  | None => false
  end.

(** [with open(path, 'r') as f: json.load(f)] on an existing file. *)
Definition json_load (fs : FileSystem) (path : string) : M value :=
  match fs path with
  | Some r => lift r
  | None => lift (Raise (IOError ("No such file or directory: '" +++ path +++ "'")))
  end.

(** One run of a script: the arguments, the files, the active document's
    path and the host's behaviour. *)
Record Invocation : Type := mkInvocation {
  argv : list string;
  files : FileSystem;
  PathName : string;
  host : Host
}.

(** The world before the script starts: nothing printed, no transaction. *)
Definition initial (m : Model) : World := mkWorld [] m None Uninitialized [].

(** ** Library calls shared by the two scripts *)

(** [table.get(key, default)] on a dict with string keys, for a key that
    came out of [json.load]: an unhashable key raises, a key of another
    type than [str] is never found. *)
Definition table_get {A} (table : list (string * A)) (key : value) (default : A)
  : result A :=
  if hashable key then
    Ok (match key with
        | VStr s =>
            match find (fun kv => String.eqb (fst kv) s) table with
            | Some kv => snd kv
            | None => default
            end
        | _ => default
        end)
  else Raise (TypeError ("unhashable type: '" +++ type_name key +++ "'")).

(** [os.path.join(a, b)] on two Python values: both must be strings. *)
Definition path_join `{OsPath} (a b : value) : result string :=
  match a, b with
  | VStr a', VStr b' => Ok (join a' b')
  | VStr _, _ =>
      Raise (TypeError ("join() argument must be str, not '" +++ type_name b +++ "'"))
  | _, _ =>
      Raise (TypeError ("join() argument must be str, not '" +++ type_name a +++ "'"))
  end.

(** [a or b] on strings. *)
Definition py_or (a b : string) : string := if truthy a then a else b.

(* ====================================================================== *)
(** * [export_ifc.py]: the pyRevit script *)
(* ====================================================================== *)

Module export_ifc.
Section script.
Context {P : OsPath}.

(** [script_args = sys.argv[1:] if len(sys.argv) > 1 else []] *)
Definition script_args (argv : list string) : list string :=
  if (1 <? length argv)%nat then tl argv else [].

(** The [for arg in script_args] loop, from the values of [input_path]
    and [output_path] before it to their values after it. *)
Fixpoint scan_args (args : list string) (input_path output_path : option string)
  : option string * option string :=
  match args with
  | [] => (input_path, output_path)
  | arg :: rest =>
      if String.prefix "--" arg then scan_args rest input_path output_path
      else match input_path, output_path with
           | None, _ => scan_args rest (Some arg) output_path
           | Some _, None => scan_args rest input_path (Some arg)
           | Some _, Some _ => scan_args rest input_path output_path
           end
  end.

(** [input_path] after [if not input_path: input_path = doc.PathName]. *)
Definition input_path (inv : Invocation) : string :=
  match fst (scan_args (script_args (argv inv)) None None) with
  | Some arg => if truthy arg then arg else PathName inv
  | None => PathName inv
  end.

Definition output_path (inv : Invocation) : option string :=
  snd (scan_args (script_args (argv inv)) None None).

Definition params_path (inv : Invocation) : string :=
  join (dirname (input_path inv)) "params.json".

(** Reading [params.json]: [params] starts as the empty dict. *)
Definition params (inv : Invocation) : M value :=
  if truthy (input_path inv) then
    if exists_ (files inv) (params_path inv) then
      try_except
        (json_load (files inv) (params_path inv))
        (fun e =>
           print ("WARN: Could not read params.json: " +++ str e) ;;
           ret (VDict []))
    else ret (VDict [])
  else ret (VDict []).

Definition IFC_VERSIONS : list (string * IFCVersion) :=
  [("IFC2x3", IFC2x3CV2); ("IFC4", IFC4)].

Definition version_key (params : value) : result value :=
  py_get params "ifcVersion" (VStr "IFC4").

Definition ifc_version (version_key : value) : result IFCVersion :=
  table_get IFC_VERSIONS version_key IFC4.

(** The export options, from [IFCExportOptions()] to the last
    [AddOption]. *)
Definition options (params : value) (ifc_version : IFCVersion)
  : result IFCExportOptions :=
  let options := new_IFCExportOptions in
  let options := set_FileVersion ifc_version options in
  match py_get params "wallSplitting" (VBool false) with
  | Raise ex => Raise ex
  | Ok wallSplitting =>
      let options := set_WallAndColumnSplitting wallSplitting options in
      match py_get params "exportBaseQuantities" (VBool true) with
      | Raise ex => Raise ex
      | Ok exportBaseQuantities =>
          let options := set_ExportBaseQuantities exportBaseQuantities options in
          let options := AddOption "ExportInternalRevitPropertySets" "true" options in
          let options := AddOption "ExportIFCCommonPropertySets" "true" options in
          let options := AddOption "SitePlacement" "0" options in
          Ok options
      end
  end.

(** [output_dir] and [output_name], after [if output_path:]. *)
Definition output_dir (params : value) (input_path : string)
           (output_path : option string) : result value :=
  match py_get params "outputDir" (VStr (dirname input_path)) with
  | Raise ex => Raise ex
  | Ok output_dir =>
      Ok (match output_path with
          | Some p => if truthy p then VStr (dirname p) else output_dir
          | None => output_dir
          end)
  end.

Definition output_name (params : value) (input_path : string)
           (output_path : option string) : result value :=
  match py_get params "outputName"
               (VStr (fst (splitext (basename input_path)) +++ ".ifc")) with
  | Raise ex => Raise ex
  | Ok output_name =>
      Ok (match output_path with
          | Some p => if truthy p then VStr (basename p) else output_name
          | None => output_name
          end)
  end.

(** The [try] block with its handler. *)
Definition run_export (h : Host) (output_dir output_name : value)
           (options : IFCExportOptions) : M unit :=
  try_except
    (result <- with_Transaction
                 (Start h ;;
                  result <- doc_Export h output_dir output_name options ;;
                  RollBack ;;
                  ret result) ;;
     full_output <- lift (path_join output_dir output_name) ;;
     if (result : bool) then
       print "EXPORT_RESULT:SUCCESS" ;;
       print ("OUTPUT_PATH:" +++ full_output)
     else
       print "EXPORT_RESULT:FAILED" ;;
       print "ERROR:Revit Document.Export() returned False")
    (fun ex =>
       print "EXPORT_RESULT:ERROR" ;;
       print ("ERROR:" +++ str ex)).

(** The whole script. *)
Definition main (inv : Invocation) : M unit :=
  let input_path := input_path inv in
  let output_path := output_path inv in
  params <- params inv ;;
  version_key <- lift (version_key params) ;;
  ifc_version <- lift (ifc_version version_key) ;;
  options <- lift (options params ifc_version) ;;
  output_dir <- lift (output_dir params input_path output_path) ;;
  output_name <- lift (output_name params input_path output_path) ;;
  print "EXPORT_START" ;;
  print ("INPUT_PATH:" +++ py_or input_path (PathName inv)) ;;
  line <- lift (py_concat "OUTPUT_DIR:" output_dir) ;;
  print line ;;
  line <- lift (py_concat "OUTPUT_NAME:" output_name) ;;
  print line ;;
  line <- lift (py_concat "IFC_VERSION:" version_key) ;;
  print line ;;
  run_export (host inv) output_dir output_name options.

End script.
End export_ifc.

(* ====================================================================== *)
(** * [rbp_export_ifc.py]: the RevitBatchProcessor script *)
(* ====================================================================== *)

Module rbp_export_ifc.
Section script.
Context {P : OsPath}.

Definition input_path (inv : Invocation) : string := PathName inv.

Definition params_path (inv : Invocation) : string :=
  join (dirname (input_path inv)) "params.json".

(** Reading [params.json]: [params] starts as the empty dict. *)
Definition params (inv : Invocation) : M value :=
  if exists_ (files inv) (params_path inv) then
    try_except
      (json_load (files inv) (params_path inv))
      (fun e =>
         print ("WARN: Could not read params.json: " +++ str e) ;;
         ret (VDict []))
  else ret (VDict []).

Definition IFC_VERSIONS : list (string * IFCVersion) :=
  [("IFC2x3", IFC2x3CV2); ("IFC4", IFC4)].

Definition version_key (params : value) : result value :=
  py_get params "ifcVersion" (VStr "IFC4").

Definition ifc_version (version_key : value) : result IFCVersion :=
  table_get IFC_VERSIONS version_key IFC4.

Definition options (params : value) (ifc_version : IFCVersion)
  : result IFCExportOptions :=
  let options := new_IFCExportOptions in
  let options := set_FileVersion ifc_version options in
  match py_get params "wallSplitting" (VBool false) with
  | Raise ex => Raise ex
  | Ok wallSplitting =>
      let options := set_WallAndColumnSplitting wallSplitting options in
      match py_get params "exportBaseQuantities" (VBool true) with
      | Raise ex => Raise ex
      | Ok exportBaseQuantities =>
          let options := set_ExportBaseQuantities exportBaseQuantities options in
          let options := AddOption "ExportInternalRevitPropertySets" "true" options in
          let options := AddOption "ExportIFCCommonPropertySets" "true" options in
          let options := AddOption "SitePlacement" "0" options in
          Ok options
      end
  end.

Definition output_dir (params : value) (input_path : string) : result value :=
  py_get params "outputDir" (VStr (dirname input_path)).

Definition output_name (params : value) (input_path : string) : result value :=
  py_get params "outputName"
         (VStr (fst (splitext (basename input_path)) +++ ".ifc")).

(** The [try] block with its handler. *)
Definition run_export (h : Host) (output_dir output_name : value)
           (options : IFCExportOptions) : M unit :=
  try_except
    (result <- with_Transaction
                 (Start h ;;
                  result <- doc_Export h output_dir output_name options ;;
                  RollBack ;;
                  ret result) ;;
     full_output <- lift (path_join output_dir output_name) ;;
     if (result : bool) then
       print "EXPORT_RESULT:SUCCESS" ;;
       print ("OUTPUT_PATH:" +++ full_output)
     else
       print "EXPORT_RESULT:FAILED" ;;
       print "ERROR:Revit Document.Export() returned False")
    (fun ex =>
       print "EXPORT_RESULT:ERROR" ;;
       print ("ERROR:" +++ str ex)).

(** The whole script. *)
Definition main (inv : Invocation) : M unit :=
  let input_path := input_path inv in
  params <- params inv ;;
  version_key <- lift (version_key params) ;;
  ifc_version <- lift (ifc_version version_key) ;;
  options <- lift (options params ifc_version) ;;
  output_dir <- lift (output_dir params input_path) ;;
  output_name <- lift (output_name params input_path) ;;
  print "EXPORT_START" ;;
  print ("INPUT_PATH:" +++ input_path) ;;
  line <- lift (py_concat "OUTPUT_DIR:" output_dir) ;;
  print line ;;
  line <- lift (py_concat "OUTPUT_NAME:" output_name) ;;
  print line ;;
  line <- lift (py_concat "IFC_VERSION:" version_key) ;;
  print line ;;
  run_export (host inv) output_dir output_name options.

End script.
End rbp_export_ifc.

(* ====================================================================== *)
(** * Vocabulary of the properties *)
(* ====================================================================== *)

(** ** The documented sidecar *)

Definition is_str (v : value) : bool :=
  match v with VStr _ => true | _ => false end.

Definition is_bool (v : value) : bool :=
  match v with VBool _ => true | _ => false end.

(** A key is absent or bound to a value that passes [check]. *)
Definition field_is (check : value -> bool) (key : string)
           (entries : list (string * value)) : bool :=
  match lookup key entries with
  | Some v => check v
  | None => true
  end.

(** The sidecar of the wire contract: a JSON object in which
    [ifcVersion], [outputDir] and [outputName] are strings and
    [wallSplitting] and [exportBaseQuantities] are booleans, wherever they
    are present.  Other keys are free.  What the host makes of a flag
    that is not a boolean is its own business, so the properties of whole
    runs are stated for boolean flags. *)
Definition well_typed (params : value) : bool :=
  match params with
  | VDict entries =>
      field_is is_str "ifcVersion" entries
      && field_is is_bool "wallSplitting" entries
      && field_is is_bool "exportBaseQuantities" entries
      && field_is is_str "outputDir" entries
      && field_is is_str "outputName" entries
  | _ => false
  end.

(** The file at [path] is missing, unreadable, or a well-typed sidecar. *)
Definition sidecar_ok (fs : FileSystem) (path : string) : bool :=
  match fs path with
  | Some (Ok v) => well_typed v
  | _ => true
  end.

(** What reading the file at [path] leaves in [params], and the warning
    lines it prints. *)
Definition loaded (fs : FileSystem) (path : string) : value :=
  match fs path with
  | Some (Ok v) => v
  | _ => VDict []
  end.

Definition warnings (fs : FileSystem) (path : string) : list string :=
  match fs path with
  | Some (Raise e) => ["WARN: Could not read params.json: " +++ str e]
  | _ => []
  end.

(** ** The status line protocol *)

Inductive ExportOutcome : Type :=
| Success (outputPath : string)
| Failed (reason : string)
| Error (message : string).

Definition result_lines (o : ExportOutcome) : list string :=
  match o with
  | Success outputPath => ["EXPORT_RESULT:SUCCESS"; "OUTPUT_PATH:" +++ outputPath]
  | Failed reason => ["EXPORT_RESULT:FAILED"; "ERROR:" +++ reason]
  | Error message => ["EXPORT_RESULT:ERROR"; "ERROR:" +++ message]
  end.

Definition header_lines (input dir name version : string) : list string :=
  ["EXPORT_START";
   "INPUT_PATH:" +++ input;
   "OUTPUT_DIR:" +++ dir;
   "OUTPUT_NAME:" +++ name;
   "IFC_VERSION:" +++ version].

Definition status_lines (input dir name version : string) (o : ExportOutcome)
  : list string :=
  header_lines input dir name version ++ result_lines o.

(** How many lines start with [key]. *)
Definition count_lines (key : string) (lines : list string) : nat :=
  length (filter (String.prefix key) lines).


(** Appending lines to what a world has printed. *)
Definition printed (lines : list string) (w : World) : World :=
  mkWorld (stdout w ++ lines) (persisted w) (working w) (status w) (exports w).

(** ** What a well-typed sidecar resolves to *)

Section Resolved.
Context {P : OsPath}.

(** A string field of [params], or [default] when the key is absent. *)
Definition str_field (key default : string) (params : value) : string :=
  match params with
  | VDict entries =>
      match lookup key entries with
      | Some (VStr s) => s
      | _ => default
      end
  | _ => default
  end.

(** A field of [params] as it stands, or [default] when the key is absent. *)
Definition field (key : string) (default : value) (params : value) : value :=
  match params with
  | VDict entries =>
      match lookup key entries with
      | Some v => v
      | None => default
      end
  | _ => default
  end.

Definition resolved_key (params : value) : string :=
  str_field "ifcVersion" "IFC4" params.

Definition resolved_version (params : value) : IFCVersion :=
  if String.eqb (resolved_key params) "IFC2x3" then IFC2x3CV2 else IFC4.

Definition resolved_options (params : value) : IFCExportOptions :=
  mkOptions (resolved_version params)
            (field "wallSplitting" (VBool false) params)
            (field "exportBaseQuantities" (VBool true) params)
            [("ExportInternalRevitPropertySets", "true");
             ("ExportIFCCommonPropertySets", "true");
             ("SitePlacement", "0")].

Definition resolved_dir (params : value) (input_path : string)
           (output_path : option string) : string :=
  if truthy_opt output_path
  then match output_path with Some p => dirname p | None => "" end
  else str_field "outputDir" (dirname input_path) params.

Definition resolved_name (params : value) (input_path : string)
           (output_path : option string) : string :=
  if truthy_opt output_path
  then match output_path with Some p => basename p | None => "" end
  else str_field "outputName"
                 (fst (splitext (basename input_path)) +++ ".ifc") params.

(** The outcome the host's behaviour leads to, for a document whose saved
    model is [m] and with no transaction open. *)
Definition outcome_of (h : Host) (m : Model) (dir name : string)
           (opts : IFCExportOptions) : ExportOutcome :=
  if accepts_transaction h then
    match fst (Export h (VStr dir) (VStr name) opts m) with
    | Ok true => Success (join dir name)
    | Ok false => Failed "Revit Document.Export() returned False"
    | Raise ex => Error (str ex)
    end
  else Error "Cannot start the transaction".

Definition final_status (h : Host) : TransactionStatus :=
  if accepts_transaction h then RolledBack else Uninitialized.

(** The calls of [doc.Export] the run makes. *)
Definition calls_of (h : Host) (dir name : string) (opts : IFCExportOptions)
  : list ExportCall :=
  if accepts_transaction h then [mkCall (VStr dir) (VStr name) opts] else [].

(** The lines a run reports once [params] is known. *)
Definition report (h : Host) (m : Model) (input_line input_path : string)
           (output_path : option string) (params : value) : list string :=
  let dir := resolved_dir params input_path output_path in
  let name := resolved_name params input_path output_path in
  status_lines input_line dir name (resolved_key params)
               (outcome_of h m dir name (resolved_options params)).

(** Everything [export_ifc.py] does after [params] has been read, as a
    function of the values it has by then; [rbp_export_ifc.py] does the
    same with no [output_path]. *)
Definition pipeline (h : Host) (input_line input_path : string)
           (output_path : option string) (params : value) : M unit :=
  version_key <- lift (export_ifc.version_key params) ;;
  ifc_version <- lift (export_ifc.ifc_version version_key) ;;
  options <- lift (export_ifc.options params ifc_version) ;;
  output_dir <- lift (export_ifc.output_dir params input_path output_path) ;;
  output_name <- lift (export_ifc.output_name params input_path output_path) ;;
  print "EXPORT_START" ;;
  print ("INPUT_PATH:" +++ input_line) ;;
  line <- lift (py_concat "OUTPUT_DIR:" output_dir) ;;
  print line ;;
  line <- lift (py_concat "OUTPUT_NAME:" output_name) ;;
  print line ;;
  line <- lift (py_concat "IFC_VERSION:" version_key) ;;
  print line ;;
  export_ifc.run_export h output_dir output_name options.

End Resolved.

(** The interactive script's [params] and warnings for an invocation. *)
Definition export_ifc_loaded `{OsPath} (inv : Invocation) : value :=
  if truthy (export_ifc.input_path inv)
  then loaded (files inv) (export_ifc.params_path inv)
  else VDict [].

Definition export_ifc_warnings `{OsPath} (inv : Invocation) : list string :=
  if truthy (export_ifc.input_path inv)
  then warnings (files inv) (export_ifc.params_path inv)
  else [].



(** The options the builder yields when the sidecar sets nothing. *)
Definition default_options : IFCExportOptions :=
  mkOptions IFC4 (VBool false) (VBool true)
            [("ExportInternalRevitPropertySets", "true");
             ("ExportIFCCommonPropertySets", "true");
             ("SitePlacement", "0")].

(** The three settings fixed by policy, and an export call made with
    exactly them. *)
Definition fixed_options : list (string * string) :=
  [("ExportInternalRevitPropertySets", "true");
   ("ExportIFCCommonPropertySets", "true");
   ("SitePlacement", "0")].

Definition fixed_settings (c : ExportCall) : Prop :=
  AddedOptions (call_options c) = fixed_options.


(** The positional arguments of the interactive script, in order. *)
Definition positional (inv : Invocation) : list string :=
  filter (fun arg => negb (String.prefix "--" arg))
         (export_ifc.script_args (argv inv)).

(** The explicit output path of an invocation: the second positional
    argument, when there is one and it is not empty. *)
Definition explicit_output (inv : Invocation) : option string :=
  match nth_error (positional inv) 1 with
  | Some p => if truthy p then Some p else None
  | None => None
  end.

(** Lines 76 to 91 of [export_ifc.py] and lines 57 to 70 of
    [rbp_export_ifc.py] as one function of [params]: the export option
    builder. *)
Definition export_ifc_build (params : value) : result IFCExportOptions :=
  match export_ifc.version_key params with
  | Raise ex => Raise ex
  | Ok version_key =>
      match export_ifc.ifc_version version_key with
      | Raise ex => Raise ex
      | Ok ifc_version => export_ifc.options params ifc_version
      end
  end.

Definition rbp_build (params : value) : result IFCExportOptions :=
  match rbp_export_ifc.version_key params with
  | Raise ex => Raise ex
  | Ok version_key =>
      match rbp_export_ifc.ifc_version version_key with
      | Raise ex => Raise ex
      | Ok ifc_version => rbp_export_ifc.options params ifc_version
      end
  end.

(** Two sidecars agree on the keys the option builder reads. *)
Definition same_option_fields (a b : list (string * value)) : Prop :=
  lookup "ifcVersion" a = lookup "ifcVersion" b
  /\ lookup "wallSplitting" a = lookup "wallSplitting" b
  /\ lookup "exportBaseQuantities" a = lookup "exportBaseQuantities" b.

(** ** Sample hosts and files *)

(** A host whose exporter writes the file and reports success, leaving a
    temporary element in the working copy. *)
Definition host_succeeding : Host :=
  mkHost true (fun _ _ _ m => (Ok true, "IfcExportTemp" :: m)).

(** A host whose exporter reports failure. *)
Definition host_failing : Host :=
  mkHost true (fun _ _ _ m => (Ok false, m)).

(** A host whose exporter raises after touching the working copy. *)
Definition host_raising (msg : string) : Host :=
  mkHost true (fun _ _ _ m => (Raise (HostException msg), "IfcExportTemp" :: m)).


(** A file system with one file. *)
Definition one_file (path : string) (content : result value) : FileSystem :=
  fun p => if String.eqb p path then Some content else None.

Definition no_files : FileSystem := fun _ => None.

(** ** Sample invocations *)

(** [design.rvt] with no sidecar, exported by the interactive script. *)
Definition scenario_A : Invocation :=
  mkInvocation ["export_ifc.py"; "C:/jobs/a/design.rvt"; "--revit=2023"]
               no_files "C:/jobs/a/design.rvt" host_succeeding.

(** A sidecar that asks for IFC2x3 and names the output. *)
Definition scenario_B : Invocation :=
  mkInvocation ["export_ifc.py"; "C:/jobs/a/design.rvt"; "--revit=2023"]
               (one_file "C:/jobs/a/params.json"
                  (Ok (VDict [("ifcVersion", VStr "IFC2x3");
                              ("outputName", VStr "out.ifc")])))
               "C:/jobs/a/design.rvt" host_succeeding.

(** A sidecar that is not JSON. *)
Definition scenario_C : Invocation :=
  mkInvocation ["export_ifc.py"; "C:/jobs/a/design.rvt"]
               (one_file "C:/jobs/a/params.json"
                  (Raise (ValueError "No JSON object could be decoded")))
               "C:/jobs/a/design.rvt" host_failing.

(** The exporter raises. *)
Definition scenario_D : Invocation :=
  mkInvocation ["export_ifc.py"; "C:/jobs/a/design.rvt"]
               no_files "C:/jobs/a/design.rvt" (host_raising "disk full").

(** An explicit output path that is a bare file name, next to a sidecar
    that names another directory. *)
Definition bare_output : Invocation :=
  mkInvocation ["export_ifc.py"; "C:/jobs/a/design.rvt"; "result.ifc"]
               (one_file "C:/jobs/a/params.json"
                  (Ok (VDict [("outputDir", VStr "C:/exports")])))
               "C:/jobs/a/design.rvt" host_succeeding.

(** The same on Windows paths. *)
Definition bare_output_windows : Invocation :=
  mkInvocation ["export_ifc.py"; "C:\jobs\a\design.rvt"; "result.ifc"; "--revit=2023"]
               (one_file "C:\jobs\a\params.json"
                  (Ok (VDict [("outputDir", VStr "D:\exports")])))
               "C:\jobs\a\design.rvt" host_succeeding.

(** Scenario B on Windows paths. *)
Definition scenario_B_windows : Invocation :=
  mkInvocation []
               (one_file "C:\jobs\a\params.json"
                  (Ok (VDict [("ifcVersion", VStr "IFC2x3");
                              ("outputName", VStr "out.ifc")])))
               "C:\jobs\a\design.rvt" host_succeeding.


(** A sidecar that holds the JSON array [[]]. *)
Definition array_sidecar : Invocation :=
  mkInvocation []
               (one_file "C:/jobs/a/params.json" (Ok (VList [])))
               "C:/jobs/a/design.rvt" host_succeeding.



(** The export block of the scripts with [Commit] in the place of
    [RollBack]: what the scripts do not do. *)
Definition committing_block (h : Host) (options : IFCExportOptions) : M bool :=
  with_Transaction
    (Start h ;;
     result <- doc_Export h (VStr "C:/jobs/a") (VStr "design.ifc") options ;;
     Commit ;;
     ret result).

(** ** Vocabulary of the further properties *)

Definition is_dict (v : value) : bool :=
  match v with VDict _ => true | _ => false end.

(** An invocation with other arguments, or with other files. *)
Definition with_argv (args : list string) (inv : Invocation) : Invocation :=
  mkInvocation args (files inv) (PathName inv) (host inv).

Definition with_files (fs : FileSystem) (inv : Invocation) : Invocation :=
  mkInvocation (argv inv) fs (PathName inv) (host inv).

(** Two sidecar objects give the same five values to the scripts: for
    each key the scripts read, the value under the key, or the default the
    script passes to [get] when the key is absent. *)
Definition same_effective_fields `{OsPath} (input_path : string)
           (a b : list (string * value)) : Prop :=
  field "ifcVersion" (VStr "IFC4") (VDict a)
  = field "ifcVersion" (VStr "IFC4") (VDict b)
  /\ field "wallSplitting" (VBool false) (VDict a)
     = field "wallSplitting" (VBool false) (VDict b)
  /\ field "exportBaseQuantities" (VBool true) (VDict a)
     = field "exportBaseQuantities" (VBool true) (VDict b)
  /\ field "outputDir" (VStr (dirname input_path)) (VDict a)
     = field "outputDir" (VStr (dirname input_path)) (VDict b)
  /\ field "outputName"
           (VStr (fst (splitext (basename input_path)) +++ ".ifc")) (VDict a)
     = field "outputName"
             (VStr (fst (splitext (basename input_path)) +++ ".ifc")) (VDict b).

(** A host whose document refuses the transaction. *)
Definition host_refusing : Host :=
  mkHost false (fun _ _ _ m => (Ok true, m)).

(** Flags between and after the positional arguments, and a third
    positional argument. *)
Definition crowded_arguments : list string :=
  ["export_ifc.py"; "--revit=2023"; "C:/jobs/a/design.rvt"; "--quiet";
   "C:/exports/out.ifc"; "C:/ignored.ifc"; "--debug"].

(** A sidecar with a number under [ifcVersion]. *)
Definition numeric_version : Invocation :=
  mkInvocation ["export_ifc.py"; "C:/jobs/a/design.rvt"]
               (one_file "C:/jobs/a/params.json"
                  (Ok (VDict [("ifcVersion", VInt 4)])))
               "C:/jobs/a/design.rvt" host_succeeding.

(** A sidecar with a list under [ifcVersion]. *)
Definition list_version : Invocation :=
  mkInvocation ["export_ifc.py"; "C:/jobs/a/design.rvt"]
               (one_file "C:/jobs/a/params.json"
                  (Ok (VDict [("ifcVersion", VList [VStr "IFC4"])])))
               "C:/jobs/a/design.rvt" host_succeeding.

(** A sidecar with a number under [outputName], with an explicit output
    path on the command line. *)
Definition numeric_name_explicit : Invocation :=
  mkInvocation ["export_ifc.py"; "C:/jobs/a/design.rvt"; "C:/exports/out.ifc"]
               (one_file "C:/jobs/a/params.json"
                  (Ok (VDict [("outputName", VInt 7)])))
               "C:/jobs/a/design.rvt" host_succeeding.

(** A sidecar that spells out every default and adds a key of its own. *)
Definition spelled_out : Invocation :=
  mkInvocation ["export_ifc.py"; "C:/jobs/a/design.rvt"]
               (one_file "C:/jobs/a/params.json"
                  (Ok (VDict [("ifcVersion", VStr "IFC4");
                              ("wallSplitting", VBool false);
                              ("exportBaseQuantities", VBool true);
                              ("outputDir", VStr "C:/jobs/a");
                              ("outputName", VStr "design.ifc");
                              ("SitePlacement", VStr "1")])))
               "C:/jobs/a/design.rvt" host_succeeding.

(** The files of scenario B together with a file elsewhere. *)
Definition files_B_and_more : FileSystem :=
  fun p => if String.eqb p "C:/elsewhere/params.json"
           then Some (Ok (VList []))
           else files scenario_B p.

(** Scenario B on a document that refuses the transaction. *)
Definition refused_B : Invocation :=
  mkInvocation (argv scenario_B) (files scenario_B) (PathName scenario_B)
               host_refusing.

(** An empty string in the place of the output path, next to a sidecar
    that names the output. *)
Definition empty_output_argument : Invocation :=
  mkInvocation ["export_ifc.py"; "C:/jobs/a/design.rvt"; ""; "--revit=2023"]
               (files scenario_B) "C:/jobs/a/design.rvt" host_succeeding.

(* ====================================================================== *)
(** * Properties *)
(* ====================================================================== *)

(** ** Worlds and statements *)

Lemma printed_nil (w : World) : printed [] w = w.
Proof.
  destruct w as [out m wk st calls]. unfold printed. simpl.
  now rewrite app_nil_r.
Qed.

Lemma printed_app (a b : list string) (w : World) :
  printed b (printed a w) = printed (a ++ b) w.
Proof.
  unfold printed. simpl. now rewrite app_assoc.
Qed.

Lemma print_printed (line : string) (w : World) :
  print line w = (Ok tt, printed [line] w).
Proof. reflexivity. Qed.

Lemma bind_print {A} (line : string) (k : unit -> M A) (w : World) :
  bind (print line) k w = k tt (printed [line] w).
Proof. reflexivity. Qed.

Lemma bind_lift {A B} (r : result A) (k : A -> M B) (w : World) :
  bind (lift r) k w
  = match r with
    | Ok a => k a w
    | Raise ex => (Raise ex, w)
    end.
Proof. destruct r; reflexivity. Qed.

(** ** Reading the sidecar *)

Section Loader.
Context {P : OsPath}.

Lemma load_or_warn (fs : FileSystem) (path : string) (w : World) :
  (if exists_ fs path
   then try_except (json_load fs path)
          (fun e => print ("WARN: Could not read params.json: " +++ str e) ;;
                    ret (VDict []))
   else ret (VDict [])) w
  = (Ok (loaded fs path), printed (warnings fs path) w).
Proof.
  unfold exists_, json_load, loaded, warnings, try_except, lift.
  destruct (fs path) as [[v | e] | ]; simpl;
    try (now rewrite printed_nil).
  reflexivity.
Qed.

Lemma rbp_params_run (inv : Invocation) (w : World) :
  rbp_export_ifc.params inv w
  = (Ok (loaded (files inv) (rbp_export_ifc.params_path inv)),
     printed (warnings (files inv) (rbp_export_ifc.params_path inv)) w).
Proof. apply load_or_warn. Qed.

Lemma export_ifc_params_run (inv : Invocation) (w : World) :
  export_ifc.params inv w
  = (Ok (export_ifc_loaded inv), printed (export_ifc_warnings inv) w).
Proof.
  unfold export_ifc.params, export_ifc_loaded, export_ifc_warnings.
  destruct (truthy (export_ifc.input_path inv)).
  - apply load_or_warn.
  - unfold ret. now rewrite printed_nil.
Qed.

(** ** Each script is its loader followed by the common pipeline *)

Lemma export_ifc_main_run (inv : Invocation) (w : World) :
  export_ifc.main inv w
  = pipeline (host inv)
             (py_or (export_ifc.input_path inv) (PathName inv))
             (export_ifc.input_path inv) (export_ifc.output_path inv)
             (export_ifc_loaded inv)
             (printed (export_ifc_warnings inv) w).
Proof.
  unfold export_ifc.main, bind at 1.
  now rewrite export_ifc_params_run.
Qed.

Lemma rbp_main_run (inv : Invocation) (w : World) :
  rbp_export_ifc.main inv w
  = pipeline (host inv) (PathName inv) (PathName inv) None
             (loaded (files inv) (rbp_export_ifc.params_path inv))
             (printed (warnings (files inv) (rbp_export_ifc.params_path inv)) w).
Proof.
  unfold rbp_export_ifc.main, bind at 1.
  rewrite rbp_params_run.
  generalize (loaded (files inv) (rbp_export_ifc.params_path inv)) as params.
  generalize (printed (warnings (files inv) (rbp_export_ifc.params_path inv)) w)
    as w'.
  intros w' params.
  unfold pipeline, rbp_export_ifc.input_path.
  destruct params; reflexivity.
Qed.

(** ** The export block *)

Lemma run_export_strings (h : Host) (dir name : string)
      (opts : IFCExportOptions) (w : World) :
  working w = None ->
  export_ifc.run_export h (VStr dir) (VStr name) opts w
  = (Ok tt,
     mkWorld (stdout w ++ result_lines (outcome_of h (persisted w) dir name opts))
             (persisted w) None (final_status h)
             (exports w ++ calls_of h dir name opts)).
Proof.
  destruct w as [out m wk st calls]. simpl. intros ->.
  unfold export_ifc.run_export, outcome_of, final_status, calls_of, try_except,
    with_Transaction, bind, Start, doc_Export, RollBack, Dispose, discard,
    lift, print, ret, path_join.
  simpl.
  destruct (accepts_transaction h); simpl.
  - destruct (Export h (VStr dir) (VStr name) opts m) as [[[ | ] | ex] m'];
      simpl; rewrite <- ?app_assoc; reflexivity.
  - rewrite <- ?app_assoc, app_nil_r. reflexivity.
Qed.

End Loader.

(** ** The pipeline on a well-typed sidecar *)

Section Pipeline.
Context {P : OsPath}.

Lemma field_is_str (key : string) (entries : list (string * value)) :
  field_is is_str key entries = true ->
  lookup key entries = None \/ exists s, lookup key entries = Some (VStr s).
Proof.
  unfold field_is. destruct (lookup key entries) as [v | ]; [ | now left].
  destruct v; simpl; try discriminate. intros _. right. now eexists.
Qed.

Lemma well_typed_fields (params : value) :
  well_typed params = true ->
  exists entries,
    params = VDict entries
    /\ field_is is_str "ifcVersion" entries = true
    /\ field_is is_str "outputDir" entries = true
    /\ field_is is_str "outputName" entries = true.
Proof.
  destruct params; simpl; try discriminate.
  intros H. repeat (apply andb_prop in H; destruct H as [H ?]).
  eexists. repeat split; eauto.
Qed.

(** The version the option builder selects for a string key. *)
Lemma ifc_version_str (s : string) :
  export_ifc.ifc_version (VStr s)
  = Ok (if String.eqb s "IFC2x3" then IFC2x3CV2 else IFC4).
Proof.
  unfold export_ifc.ifc_version, table_get, export_ifc.IFC_VERSIONS.
  cbn [hashable find fst snd].
  rewrite (String.eqb_sym "IFC2x3" s).
  destruct (String.eqb s "IFC2x3") eqn:E23; [reflexivity | ].
  rewrite (String.eqb_sym "IFC4" s).
  destruct (String.eqb s "IFC4"); reflexivity.
Qed.

Lemma version_key_well_typed (params : value) :
  well_typed params = true ->
  export_ifc.version_key params = Ok (VStr (resolved_key params)).
Proof.
  intros H. destruct (well_typed_fields _ H) as (entries & -> & Hv & _).
  unfold export_ifc.version_key, resolved_key, str_field, py_get.
  destruct (field_is_str _ _ Hv) as [-> | [s ->]]; reflexivity.
Qed.

Lemma options_dict (entries : list (string * value)) (v : IFCVersion) :
  export_ifc.options (VDict entries) v
  = Ok (mkOptions v
          (field "wallSplitting" (VBool false) (VDict entries))
          (field "exportBaseQuantities" (VBool true) (VDict entries))
          [("ExportInternalRevitPropertySets", "true");
           ("ExportIFCCommonPropertySets", "true");
           ("SitePlacement", "0")]).
Proof. reflexivity. Qed.

Lemma output_dir_well_typed (params : value) (input_path : string)
      (output_path : option string) :
  well_typed params = true ->
  export_ifc.output_dir params input_path output_path
  = Ok (VStr (resolved_dir params input_path output_path)).
Proof.
  intros H. destruct (well_typed_fields _ H) as (entries & -> & _ & Hd & _).
  unfold export_ifc.output_dir, resolved_dir, str_field, py_get, truthy_opt.
  destruct output_path as [p | ]; [destruct (truthy p); [reflexivity | ] | ];
    destruct (field_is_str _ _ Hd) as [-> | [s ->]]; reflexivity.
Qed.

Lemma output_name_well_typed (params : value) (input_path : string)
      (output_path : option string) :
  well_typed params = true ->
  export_ifc.output_name params input_path output_path
  = Ok (VStr (resolved_name params input_path output_path)).
Proof.
  intros H. destruct (well_typed_fields _ H) as (entries & -> & _ & _ & Hn).
  unfold export_ifc.output_name, resolved_name, str_field, py_get, truthy_opt.
  destruct output_path as [p | ]; [destruct (truthy p); [reflexivity | ] | ];
    destruct (field_is_str _ _ Hn) as [-> | [s ->]]; reflexivity.
Qed.

(** On a well-typed sidecar the pipeline never raises: it prints the five
    header lines and the two lines of the outcome, and leaves the document
    with no open transaction. *)
Lemma pipeline_well_typed (h : Host) (input_line input_path : string)
      (output_path : option string) (params : value) (w : World) :
  well_typed params = true ->
  working w = None ->
  pipeline h input_line input_path output_path params w
  = (Ok tt,
     mkWorld (stdout w ++ report h (persisted w) input_line input_path
                                 output_path params)
             (persisted w) None (final_status h)
             (exports w ++ calls_of h (resolved_dir params input_path output_path)
                                    (resolved_name params input_path output_path)
                                    (resolved_options params))).
Proof.
  intros Hwt Hw.
  unfold pipeline.
  unfold bind at 1. rewrite (version_key_well_typed _ Hwt). unfold lift at 1.
  unfold bind at 1. rewrite ifc_version_str. unfold lift at 1.
  destruct (well_typed_fields _ Hwt) as (entries & Hp & _).
  unfold bind at 1. rewrite Hp at 1. rewrite options_dict. unfold lift at 1.
  rewrite <- Hp.
  unfold bind at 1. rewrite (output_dir_well_typed _ _ _ Hwt). unfold lift at 1.
  unfold bind at 1. rewrite (output_name_well_typed _ _ _ Hwt). unfold lift at 1.
  unfold py_concat, lift.
  repeat (unfold bind at 1; rewrite ?print_printed; rewrite ?printed_app).
  rewrite run_export_strings by exact Hw.
  unfold report, status_lines, header_lines, resolved_options, resolved_version.
  simpl. rewrite <- app_assoc. reflexivity.
Qed.

End Pipeline.

(** ** The pipeline on any sidecar *)

Section Frame.
Context {P : OsPath}.

(** An options object that came out of the option builder carries the
    three fixed settings, whatever [params] holds. *)
Lemma options_added (params : value) (v : IFCVersion) (o : IFCExportOptions) :
  export_ifc.options params v = Ok o ->
  AddedOptions o = fixed_options /\ FileVersion o = v.
Proof.
  destruct params; simpl; try discriminate.
  intros H. injection H as <-. split; reflexivity.
Qed.

(** Either the pipeline raises before the export block, having only
    printed lines, or it enters the export block with two strings and an
    options object of the option builder. *)
Lemma pipeline_cases (h : Host) (input_line input_path : string)
      (output_path : option string) (params : value) (w : World) :
  (exists ex lines,
      pipeline h input_line input_path output_path params w
      = (Raise ex, printed lines w))
  \/
  (exists dir name v opts lines,
      export_ifc.options params v = Ok opts
      /\ pipeline h input_line input_path output_path params w
         = export_ifc.run_export h (VStr dir) (VStr name) opts (printed lines w)).
Proof.
  unfold pipeline.
  rewrite bind_lift.
  destruct (export_ifc.version_key params) as [key | ex];
    [ | left; exists ex, []; now rewrite printed_nil].
  rewrite bind_lift.
  destruct (export_ifc.ifc_version key) as [v | ex];
    [ | left; exists ex, []; now rewrite printed_nil].
  rewrite bind_lift.
  destruct (export_ifc.options params v) as [opts | ex] eqn:Hopts;
    [ | left; exists ex, []; now rewrite printed_nil].
  rewrite bind_lift.
  destruct (export_ifc.output_dir params input_path output_path) as [dir | ex];
    [ | left; exists ex, []; now rewrite printed_nil].
  rewrite bind_lift.
  destruct (export_ifc.output_name params input_path output_path) as [name | ex];
    [ | left; exists ex, []; now rewrite printed_nil].
  rewrite !bind_print, printed_app, bind_lift.
  destruct (py_concat "OUTPUT_DIR:" dir) as [line1 | ex] eqn:Hdir;
    [ | left; now eexists ex, _].
  rewrite bind_print, printed_app, bind_lift.
  destruct (py_concat "OUTPUT_NAME:" name) as [line2 | ex] eqn:Hname;
    [ | left; now eexists ex, _].
  rewrite bind_print, printed_app, bind_lift.
  destruct (py_concat "IFC_VERSION:" key) as [line3 | ex];
    [ | left; now eexists ex, _].
  rewrite bind_print, printed_app.
  right.
  destruct dir; try discriminate. destruct name; try discriminate.
  now eexists _, _, v, opts, _.
Qed.

(** What any run of the pipeline leaves behind: more lines, the saved
    model as it was, no open transaction, and at most one export call,
    made with the three fixed settings. *)
Lemma pipeline_frame (h : Host) (input_line input_path : string)
      (output_path : option string) (params : value) (w : World) :
  working w = None ->
  exists r lines st calls,
    pipeline h input_line input_path output_path params w
    = (r, mkWorld (stdout w ++ lines) (persisted w) None st (exports w ++ calls))
    /\ (st = status w \/ st = Uninitialized \/ st = RolledBack)
    /\ Forall fixed_settings calls.
Proof.
  intros Hw.
  destruct (pipeline_cases h input_line input_path output_path params w)
    as [(ex & lines & ->) | (dir & name & v & opts & lines & Hopts & ->)].
  - exists (Raise ex), lines, (status w), [].
    unfold printed. rewrite Hw, app_nil_r. auto.
  - rewrite run_export_strings by exact Hw.
    eexists (Ok tt), _, (final_status h), (calls_of h dir name opts).
    simpl. rewrite <- app_assoc. split; [reflexivity | split].
    + unfold final_status. destruct (accepts_transaction h); auto.
    + unfold calls_of. destruct (accepts_transaction h); constructor; [ | constructor].
      unfold fixed_settings. simpl. now apply (options_added params v).
Qed.

End Frame.

(** ** Arguments of the interactive script *)

Lemma scan_args_full (args : list string) (a b : string) :
  export_ifc.scan_args args (Some a) (Some b) = (Some a, Some b).
Proof.
  induction args as [ | arg rest IH]; simpl; [reflexivity | ].
  destruct (String.prefix "--" arg); exact IH.
Qed.

Lemma scan_args_input (args : list string) (a : string) :
  export_ifc.scan_args args (Some a) None
  = (Some a, nth_error (filter (fun arg => negb (String.prefix "--" arg)) args) 0).
Proof.
  induction args as [ | arg rest IH]; simpl; [reflexivity | ].
  destruct (String.prefix "--" arg); simpl; [exact IH | apply scan_args_full].
Qed.

Lemma scan_args_positional (args : list string) :
  export_ifc.scan_args args None None
  = (nth_error (filter (fun arg => negb (String.prefix "--" arg)) args) 0,
     nth_error (filter (fun arg => negb (String.prefix "--" arg)) args) 1).
Proof.
  induction args as [ | arg rest IH]; simpl; [reflexivity | ].
  destruct (String.prefix "--" arg); simpl; [exact IH | apply scan_args_input].
Qed.

Lemma output_path_positional (inv : Invocation) :
  export_ifc.output_path inv = nth_error (positional inv) 1.
Proof.
  unfold export_ifc.output_path, positional.
  now rewrite scan_args_positional.
Qed.

Lemma truthy_output_path (inv : Invocation) :
  match explicit_output inv with
  | Some p => export_ifc.output_path inv = Some p /\ truthy p = true
  | None => truthy_opt (export_ifc.output_path inv) = false
  end.
Proof.
  unfold explicit_output. rewrite output_path_positional.
  destruct (nth_error (positional inv) 1) as [p | ]; simpl; [ | reflexivity].
  destruct (truthy p) eqn:E; auto.
Qed.



(** ** Whole runs on a documented sidecar *)

Section Runs.
Context {P : OsPath}.

Lemma well_typed_empty : well_typed (VDict []) = true.
Proof. reflexivity. Qed.

Lemma sidecar_ok_loaded (fs : FileSystem) (path : string) :
  sidecar_ok fs path = true -> well_typed (loaded fs path) = true.
Proof.
  unfold sidecar_ok, loaded.
  destruct (fs path) as [[v | e] | ]; auto.
Qed.

Lemma export_ifc_loaded_ok (inv : Invocation) :
  sidecar_ok (files inv) (export_ifc.params_path inv) = true ->
  well_typed (export_ifc_loaded inv) = true.
Proof.
  intros H. unfold export_ifc_loaded.
  destruct (truthy (export_ifc.input_path inv)); [ | reflexivity].
  now apply sidecar_ok_loaded.
Qed.

Lemma warnings_shape (fs : FileSystem) (path : string) :
  warnings fs path = []
  \/ exists msg, warnings fs path = ["WARN: Could not read params.json: " +++ msg].
Proof.
  unfold warnings. destruct (fs path) as [[v | e] | ]; eauto.
Qed.

Lemma export_ifc_warnings_shape (inv : Invocation) :
  export_ifc_warnings inv = []
  \/ exists msg,
      export_ifc_warnings inv = ["WARN: Could not read params.json: " +++ msg].
Proof.
  unfold export_ifc_warnings.
  destruct (truthy (export_ifc.input_path inv)); [apply warnings_shape | now left].
Qed.

(** The interactive script on a documented sidecar. *)
Lemma export_ifc_main_ok (inv : Invocation) (m : Model) :
  sidecar_ok (files inv) (export_ifc.params_path inv) = true ->
  let params := export_ifc_loaded inv in
  let input_path := export_ifc.input_path inv in
  let output_path := export_ifc.output_path inv in
  export_ifc.main inv (initial m)
  = (Ok tt,
     mkWorld (export_ifc_warnings inv
              ++ report (host inv) m (py_or input_path (PathName inv))
                        input_path output_path params)
             m None (final_status (host inv))
             (calls_of (host inv)
                       (resolved_dir params input_path output_path)
                       (resolved_name params input_path output_path)
                       (resolved_options params))).
Proof.
  intros Hok params input_path output_path.
  rewrite export_ifc_main_run.
  rewrite pipeline_well_typed;
    [reflexivity | now apply export_ifc_loaded_ok | reflexivity].
Qed.

(** The batch script on a documented sidecar. *)
Lemma rbp_main_ok (inv : Invocation) (m : Model) :
  sidecar_ok (files inv) (rbp_export_ifc.params_path inv) = true ->
  let params := loaded (files inv) (rbp_export_ifc.params_path inv) in
  rbp_export_ifc.main inv (initial m)
  = (Ok tt,
     mkWorld (warnings (files inv) (rbp_export_ifc.params_path inv)
              ++ report (host inv) m (PathName inv) (PathName inv) None params)
             m None (final_status (host inv))
             (calls_of (host inv)
                       (resolved_dir params (PathName inv) None)
                       (resolved_name params (PathName inv) None)
                       (resolved_options params))).
Proof.
  intros Hok params.
  rewrite rbp_main_run.
  rewrite pipeline_well_typed;
    [reflexivity | now apply sidecar_ok_loaded | reflexivity].
Qed.

(** Counting the lines of a report by their key. *)
Lemma count_lines_app (key : string) (a b : list string) :
  count_lines key (a ++ b) = count_lines key a + count_lines key b.
Proof.
  unfold count_lines. now rewrite filter_app, length_app.
Qed.


End Runs.

(** ** [posixpath] on bare names *)

Lemma rfind_from_absent (c : ascii) (s : string) (i last : Z) :
  occurs c s = false -> rfind_from c s i last = last.
Proof.
  revert i last. induction s as [ | a rest IH]; intros i last H; simpl in *.
  - reflexivity.
  - apply orb_false_iff in H. destruct H as [Ha Hrest].
    rewrite Ha. now apply IH.
Qed.

Lemma substring_all (s : string) : substring 0 (String.length s) s = s.
Proof.
  induction s as [ | a rest IH]; simpl; [reflexivity | now rewrite IH].
Qed.

Lemma slice_from_0 (s : string) : slice_from 0 s = s.
Proof.
  unfold slice_from. simpl. rewrite Nat.sub_0_r. apply substring_all.
Qed.

Lemma slice_to_0 (s : string) : slice_to 0 s = "".
Proof.
  unfold slice_to. simpl. destruct s; reflexivity.
Qed.

Lemma posix_bare_rfind (name : string) :
  @bare posix name = true -> rfind posixpath.sep name = (-1)%Z.
Proof.
  unfold bare. simpl. rewrite andb_true_r, negb_true_iff.
  intros H. unfold rfind. now apply rfind_from_absent.
Qed.

#[export] Instance posix_laws : OsPathLaws posix.
Proof.
  split.
  - intros name H. simpl. unfold posixpath.dirname, posixpath.split.
    rewrite (posix_bare_rfind name H). simpl.
    now rewrite slice_to_0.
  - intros name H. simpl. unfold posixpath.basename.
    rewrite (posix_bare_rfind name H). apply slice_from_0.
  - intros name _. simpl. unfold posixpath.join.
    destruct (startswith_char posixpath.sep name); reflexivity.
Qed.

(** ** [ntpath] on bare names *)

Lemma nt_bare_occurs (name : string) :
  @bare nt name = true ->
  occurs ntpath.sep name = false
  /\ occurs ntpath.altsep name = false
  /\ occurs ntpath.colon name = false.
Proof.
  unfold bare. simpl. rewrite andb_true_r, !andb_true_iff, !negb_true_iff.
  tauto.
Qed.

Lemma after_last_from_absent (s : string) (i last : Z) :
  occurs ntpath.sep s = false ->
  occurs ntpath.altsep s = false ->
  after_last_from ntpath.seps s i last = last.
Proof.
  revert i last. induction s as [ | a rest IH]; intros i last Hs Ha; simpl in *.
  - reflexivity.
  - apply orb_false_iff in Hs. destruct Hs as [Hs Hs'].
    apply orb_false_iff in Ha. destruct Ha as [Ha Ha'].
    rewrite Hs, Ha. simpl. now apply IH.
Qed.

Lemma nt_splitdrive_bare (name : string) :
  @bare nt name = true -> ntpath.splitdrive name = ("", name).
Proof.
  intros H. destruct (nt_bare_occurs name H) as (Hs & Ha & Hc).
  destruct name as [ | a [ | b rest]]; try reflexivity.
  simpl in Hs, Ha, Hc.
  apply orb_false_iff in Hs. destruct Hs as [Hs1 Hs].
  apply orb_false_iff in Hs. destruct Hs as [Hs2 _].
  apply orb_false_iff in Ha. destruct Ha as [Ha1 Ha].
  apply orb_false_iff in Ha. destruct Ha as [Ha2 _].
  apply orb_false_iff in Hc. destruct Hc as [_ Hc].
  apply orb_false_iff in Hc. destruct Hc as [Hc2 _].
  unfold ntpath.splitdrive.
  change (1 <? String.length (String a (String b rest)))%nat with true.
  cbn [replace_char slice substring Nat.sub String.eqb].
  rewrite Ha1, Ha2, Hs1, Hc2. reflexivity.
Qed.

Lemma nt_split_bare (name : string) :
  @bare nt name = true -> ntpath.split name = ("", name).
Proof.
  intros H. destruct (nt_bare_occurs name H) as (Hs & Ha & _).
  unfold ntpath.split. rewrite (nt_splitdrive_bare name H).
  rewrite (after_last_from_absent name 0 0 Hs Ha).
  now rewrite slice_to_0, slice_from_0.
Qed.

Lemma nt_laws : OsPathLaws nt.
Proof.
  split.
  - intros name H. simpl. unfold ntpath.dirname.
    now rewrite (nt_split_bare name H).
  - intros name H. simpl. unfold ntpath.basename.
    now rewrite (nt_split_bare name H).
  - intros name H. simpl. unfold ntpath.join.
    rewrite (nt_splitdrive_bare name H).
    change (ntpath.splitdrive "") with ("", "").
    destruct (nt_bare_occurs name H) as (Hs & Ha & _).
    destruct name as [ | a rest]; [reflexivity | ].
    simpl in Hs, Ha.
    apply orb_false_iff in Hs. destruct Hs as [Hs _].
    apply orb_false_iff in Ha. destruct Ha as [Ha _].
    cbn. rewrite Hs, Ha. cbn. rewrite Hs, Ha. reflexivity.
Qed.

(* ====================================================================== *)
(** * The claims *)
(* ====================================================================== *)

Section Claims.
Context {P : OsPath}.

(** C2.  For every invocation of either script and every behaviour of the
    host (the document refuses the transaction, the exporter returns
    success or failure, the exporter raises), the run ends with the saved
    model exactly as it was, with no transaction left open, and with the
    script's transaction neither started nor committed. *)
Theorem transaction_always_discarded (inv : Invocation) (m : Model) :
  let w1 := snd (export_ifc.main inv (initial m)) in
  let w2 := snd (rbp_export_ifc.main inv (initial m)) in
  (persisted w1 = m /\ working w1 = None
   /\ (status w1 = Uninitialized \/ status w1 = RolledBack))
  /\ (persisted w2 = m /\ working w2 = None
      /\ (status w2 = Uninitialized \/ status w2 = RolledBack)).
Proof.
  intros w1 w2. subst w1 w2.
  rewrite export_ifc_main_run, rbp_main_run.
  split.
  - destruct (pipeline_frame (host inv)
                (py_or (export_ifc.input_path inv) (PathName inv))
                (export_ifc.input_path inv) (export_ifc.output_path inv)
                (export_ifc_loaded inv)
                (printed (export_ifc_warnings inv) (initial m)) eq_refl)
      as (r & lines & st & calls & -> & Hst & _).
    simpl in *. intuition.
  - destruct (pipeline_frame (host inv) (PathName inv) (PathName inv) None
                (loaded (files inv) (rbp_export_ifc.params_path inv))
                (printed (warnings (files inv) (rbp_export_ifc.params_path inv))
                         (initial m)) eq_refl)
      as (r & lines & st & calls & -> & Hst & _).
    simpl in *. intuition.
Qed.

(** The two option builders are one function. *)
Lemma rbp_build_same (params : value) :
  rbp_build params = export_ifc_build params.
Proof. reflexivity. Qed.

Lemma build_dict (entries : list (string * value)) :
  field_is is_str "ifcVersion" entries = true ->
  export_ifc_build (VDict entries)
  = Ok (resolved_options (VDict entries)).
Proof.
  intros H. unfold export_ifc_build, export_ifc.version_key, py_get.
  unfold resolved_options, resolved_version, resolved_key, str_field.
  destruct (field_is_str _ _ H) as [-> | [s ->]];
    rewrite ifc_version_str, options_dict; reflexivity.
Qed.

(** C6.  For a sidecar whose [ifcVersion] is absent or any string, the
    option builder of either script returns an options object (it does not
    raise) whose file version is [IFC2x3CV2] for the key [IFC2x3] and
    [IFC4] for every other string, in particular for every string outside
    the known set. *)
Theorem ifcVersion_resolution_total (entries : list (string * value)) :
  field_is is_str "ifcVersion" entries = true ->
  let key := resolved_key (VDict entries) in
  exists o,
    export_ifc_build (VDict entries) = Ok o
    /\ rbp_build (VDict entries) = Ok o
    /\ FileVersion o = (if String.eqb key "IFC2x3" then IFC2x3CV2 else IFC4)
    /\ (key <> "IFC2x3" -> key <> "IFC4" -> FileVersion o = IFC4).
Proof.
  intros H key.
  exists (resolved_options (VDict entries)).
  change (rbp_build (VDict entries)) with (export_ifc_build (VDict entries)).
  rewrite (build_dict entries H).
  repeat split.
  intros H23 _. simpl. unfold resolved_version. fold key.
  destruct (String.eqb_spec key "IFC2x3"); [contradiction | reflexivity].
Qed.

Lemma build_added (params : value) (o : IFCExportOptions) :
  export_ifc_build params = Ok o -> AddedOptions o = fixed_options.
Proof.
  unfold export_ifc_build.
  destruct (export_ifc.version_key params) as [key | ]; [ | discriminate].
  destruct (export_ifc.ifc_version key) as [v | ]; [ | discriminate].
  intros H. now apply (options_added params v).
Qed.

Lemma build_same_fields (a b : list (string * value)) :
  same_option_fields a b ->
  export_ifc_build (VDict a) = export_ifc_build (VDict b).
Proof.
  intros (Hv & Hw & Hq).
  unfold export_ifc_build, export_ifc.version_key, export_ifc.options, py_get.
  now rewrite Hv, Hw, Hq.
Qed.

(** C8.  Whatever the sidecar holds: an options object built by either
    script carries exactly the three fixed settings, in the values "true",
    "true" and "0"; the builder does return an object on every documented
    sidecar; two sidecars that agree on [ifcVersion], [wallSplitting] and
    [exportBaseQuantities] give the same object, so no other key has an
    effect; and every call of [doc.Export] made by a run of either script
    receives the three fixed settings. *)
Theorem fixed_options_unconditional :
  (forall params o,
      export_ifc_build params = Ok o \/ rbp_build params = Ok o ->
      AddedOptions o = [("ExportInternalRevitPropertySets", "true");
                        ("ExportIFCCommonPropertySets", "true");
                        ("SitePlacement", "0")])
  /\ (forall params,
         well_typed params = true ->
         exists o, export_ifc_build params = Ok o /\ rbp_build params = Ok o)
  /\ (forall a b,
         same_option_fields a b ->
         export_ifc_build (VDict a) = export_ifc_build (VDict b)
         /\ rbp_build (VDict a) = rbp_build (VDict b))
  /\ (forall inv m,
         Forall fixed_settings (exports (snd (export_ifc.main inv (initial m))))
         /\ Forall fixed_settings
                  (exports (snd (rbp_export_ifc.main inv (initial m))))).
Proof.
  split; [ | split; [ | split]].
  - intros params o [H | H]; now apply build_added in H.
  - intros params H.
    destruct (well_typed_fields _ H) as (entries & -> & Hv & _).
    exists (resolved_options (VDict entries)).
    change (rbp_build (VDict entries)) with (export_ifc_build (VDict entries)).
    rewrite (build_dict entries Hv). now split.
  - intros a b H. split; now apply build_same_fields.
  - intros inv m. rewrite export_ifc_main_run, rbp_main_run. split.
    + destruct (pipeline_frame (host inv)
                  (py_or (export_ifc.input_path inv) (PathName inv))
                  (export_ifc.input_path inv) (export_ifc.output_path inv)
                  (export_ifc_loaded inv)
                  (printed (export_ifc_warnings inv) (initial m)) eq_refl)
        as (r & lines & st & calls & -> & _ & Hcalls).
      exact Hcalls.
    + destruct (pipeline_frame (host inv) (PathName inv) (PathName inv) None
                  (loaded (files inv) (rbp_export_ifc.params_path inv))
                  (printed (warnings (files inv) (rbp_export_ifc.params_path inv))
                           (initial m)) eq_refl)
        as (r & lines & st & calls & -> & _ & Hcalls).
      exact Hcalls.
Qed.

(** C5.  The output directory and name of the interactive script, for any
    sidecar object: with an explicit output path (a second positional
    argument that is not empty) they are that path's directory and file
    name, both at once and whatever the sidecar holds; without one, each is
    the sidecar's [outputDir] or [outputName] where that key is present,
    and otherwise the directory of the input path, or its base name with
    the extension replaced by [.ifc].  The batch script has no explicit
    path and follows the second and third rules. *)
Theorem output_path_precedence (inv : Invocation) (entries : list (string * value)) :
  let params := VDict entries in
  let input_path := export_ifc.input_path inv in
  let default_dir := fun path => VStr (dirname path) in
  let default_name := fun path => VStr (fst (splitext (basename path)) +++ ".ifc") in
  match explicit_output inv with
  | Some p =>
      export_ifc.output_dir params input_path (export_ifc.output_path inv)
      = Ok (VStr (dirname p))
      /\ export_ifc.output_name params input_path (export_ifc.output_path inv)
         = Ok (VStr (basename p))
  | None =>
      export_ifc.output_dir params input_path (export_ifc.output_path inv)
      = Ok (match lookup "outputDir" entries with
            | Some dir => dir
            | None => default_dir input_path
            end)
      /\ export_ifc.output_name params input_path (export_ifc.output_path inv)
         = Ok (match lookup "outputName" entries with
               | Some name => name
               | None => default_name input_path
               end)
  end
  /\ rbp_export_ifc.output_dir params (PathName inv)
     = Ok (match lookup "outputDir" entries with
           | Some dir => dir
           | None => default_dir (PathName inv)
           end)
  /\ rbp_export_ifc.output_name params (PathName inv)
     = Ok (match lookup "outputName" entries with
           | Some name => name
           | None => default_name (PathName inv)
           end).
Proof.
  intros params input_path default_dir default_name.
  split; [ | split; reflexivity].
  pose proof (truthy_output_path inv) as H.
  destruct (explicit_output inv) as [p | ].
  - destruct H as [-> Hp].
    unfold export_ifc.output_dir, export_ifc.output_name. simpl.
    now rewrite Hp.
  - unfold export_ifc.output_dir, export_ifc.output_name. simpl.
    destruct (export_ifc.output_path inv) as [p | ]; simpl in H;
      [rewrite H | ]; split; reflexivity.
Qed.






Lemma pipeline_defaults (h : Host) (input_line input_path : string)
      (output_path : option string) (w : World) :
  working w = None ->
  pipeline h input_line input_path output_path (VDict []) w
  = (Ok tt,
     mkWorld (stdout w
              ++ status_lines input_line
                   (resolved_dir (VDict []) input_path output_path)
                   (resolved_name (VDict []) input_path output_path) "IFC4"
                   (outcome_of h (persisted w)
                      (resolved_dir (VDict []) input_path output_path)
                      (resolved_name (VDict []) input_path output_path)
                      default_options))
             (persisted w) None (final_status h)
             (exports w
              ++ calls_of h (resolved_dir (VDict []) input_path output_path)
                          (resolved_name (VDict []) input_path output_path)
                          default_options)).
Proof.
  intros Hw. now rewrite (pipeline_well_typed _ _ _ _ _ _ well_typed_empty Hw).
Qed.

(** C7.  In either script: when no file exists at the sidecar path,
    [params] is the empty dict and nothing is printed; when the file
    exists and reading it raises, [params] is the empty dict and one
    [WARN:] line is printed, and the whole run then prints that line
    followed by the report of a run on the empty dict, made with the
    default options [IFC4], no wall splitting, base quantities on, and,
    with no explicit output path, the directory of the input path and its
    base name with [.ifc]. *)
Theorem sidecar_missing_or_unreadable (inv : Invocation) (w : World) (m : Model) :
  (files inv (rbp_export_ifc.params_path inv) = None ->
   rbp_export_ifc.params inv w = (Ok (VDict []), w))
  /\ (files inv (export_ifc.params_path inv) = None ->
      export_ifc.params inv w = (Ok (VDict []), w))
  /\ (forall e,
         files inv (rbp_export_ifc.params_path inv) = Some (Raise e) ->
         let warn := "WARN: Could not read params.json: " +++ str e in
         let dir := dirname (PathName inv) in
         let name := fst (splitext (basename (PathName inv))) +++ ".ifc" in
         rbp_export_ifc.params inv w = (Ok (VDict []), printed [warn] w)
         /\ fst (rbp_export_ifc.main inv (initial m)) = Ok tt
         /\ stdout (snd (rbp_export_ifc.main inv (initial m)))
            = warn :: status_lines (PathName inv) dir name "IFC4"
                        (outcome_of (host inv) m dir name default_options)
         /\ count_lines "WARN:" (stdout (snd (rbp_export_ifc.main inv (initial m))))
            = 1)
  /\ (forall e,
         truthy (export_ifc.input_path inv) = true ->
         files inv (export_ifc.params_path inv) = Some (Raise e) ->
         let warn := "WARN: Could not read params.json: " +++ str e in
         let input_path := export_ifc.input_path inv in
         let dir := resolved_dir (VDict []) input_path (export_ifc.output_path inv) in
         let name := resolved_name (VDict []) input_path (export_ifc.output_path inv) in
         export_ifc.params inv w = (Ok (VDict []), printed [warn] w)
         /\ fst (export_ifc.main inv (initial m)) = Ok tt
         /\ stdout (snd (export_ifc.main inv (initial m)))
            = warn :: status_lines (py_or input_path (PathName inv)) dir name "IFC4"
                        (outcome_of (host inv) m dir name default_options)
         /\ count_lines "WARN:" (stdout (snd (export_ifc.main inv (initial m))))
            = 1
         /\ (export_ifc.output_path inv = None ->
             dir = dirname input_path
             /\ name = fst (splitext (basename input_path)) +++ ".ifc")).
Proof.
  split; [ | split; [ | split]].
  - intros H. rewrite rbp_params_run. unfold loaded, warnings. rewrite H.
    now rewrite printed_nil.
  - intros H. rewrite export_ifc_params_run.
    unfold export_ifc_loaded, export_ifc_warnings, loaded, warnings. rewrite H.
    destruct (truthy (export_ifc.input_path inv)); now rewrite printed_nil.
  - intros e H warn dir name.
    rewrite rbp_main_run, rbp_params_run. unfold loaded, warnings. rewrite H.
    rewrite pipeline_defaults by reflexivity. simpl.
    repeat split.
    destruct (outcome_of (host inv) m (resolved_dir (VDict []) (PathName inv) None)
                (resolved_name (VDict []) (PathName inv) None) default_options);
      reflexivity.
  - intros e Ht H warn input_path dir name.
    rewrite export_ifc_main_run, export_ifc_params_run.
    unfold export_ifc_loaded, export_ifc_warnings, loaded, warnings.
    rewrite Ht, H.
    rewrite pipeline_defaults by reflexivity. simpl.
    repeat split.
    + match goal with
      | |- context [outcome_of ?h ?m0 ?d ?n ?o] =>
          destruct (outcome_of h m0 d n o); reflexivity
      end.
    + subst dir. unfold resolved_dir. now rewrite H0.
    + subst name. unfold resolved_name. now rewrite H0.
Qed.


(** C10.  In the interactive script, on a platform whose [os.path] treats
    bare names as expected, when the second positional argument is a
    non-empty bare file name, the output directory is the empty string and
    the output name is that file name, whatever the sidecar and the input
    path are; the run prints [OUTPUT_DIR:] with nothing after the colon,
    and when the host's export returns a true flag its last two lines are
    [EXPORT_RESULT:SUCCESS] and [OUTPUT_PATH:] with just the file name. *)
Theorem bare_output_name `{!OsPathLaws P}
        (inv : Invocation) (m : Model) (name : string) :
  nth_error (positional inv) 1 = Some name ->
  truthy name = true ->
  bare name = true ->
  sidecar_ok (files inv) (export_ifc.params_path inv) = true ->
  let params := export_ifc_loaded inv in
  let input_path := export_ifc.input_path inv in
  let out := stdout (snd (export_ifc.main inv (initial m))) in
  export_ifc.output_dir params input_path (export_ifc.output_path inv)
  = Ok (VStr "")
  /\ export_ifc.output_name params input_path (export_ifc.output_path inv)
     = Ok (VStr name)
  /\ out = export_ifc_warnings inv
           ++ status_lines (py_or input_path (PathName inv)) "" name
                (resolved_key params)
                (outcome_of (host inv) m "" name (resolved_options params))
  /\ (accepts_transaction (host inv) = true ->
      fst (Export (host inv) (VStr "") (VStr name) (resolved_options params) m)
      = Ok true ->
      outcome_of (host inv) m "" name (resolved_options params) = Success name).
Proof.
  intros Hpos Hname Hbare Hok params input_path out.
  assert (Hop : export_ifc.output_path inv = Some name)
    by now rewrite output_path_positional.
  assert (Hdir : resolved_dir params input_path (export_ifc.output_path inv) = "").
  { unfold resolved_dir. rewrite Hop. simpl. rewrite Hname.
    now apply dirname_bare. }
  assert (Hnm : resolved_name params input_path (export_ifc.output_path inv) = name).
  { unfold resolved_name. rewrite Hop. simpl. rewrite Hname.
    now apply basename_bare. }
  pose proof (export_ifc_loaded_ok inv Hok) as Hwt.
  split; [ | split; [ | split]].
  - rewrite (output_dir_well_typed _ _ _ Hwt). fold params input_path.
    now rewrite Hdir.
  - rewrite (output_name_well_typed _ _ _ Hwt). fold params input_path.
    now rewrite Hnm.
  - subst out. rewrite (export_ifc_main_ok inv m Hok). simpl.
    unfold report. fold params input_path. now rewrite Hdir, Hnm.
  - intros Hacc Hret. unfold outcome_of. rewrite Hacc, Hret.
    now rewrite (join_empty name Hbare).
Qed.

End Claims.

(* ====================================================================== *)
(** * Runs of the scripts on sample invocations *)
(* ====================================================================== *)

Example posix_dirname : dirname "/jobs/a/design.rvt" = "/jobs/a".
Proof. reflexivity. Qed.

Example posix_basename : basename "/jobs/a/design.rvt" = "design.rvt".
Proof. reflexivity. Qed.

Example posix_splitext : splitext "design.v2.rvt" = ("design.v2", ".rvt").
Proof. reflexivity. Qed.

Example posix_splitext_dotfile : splitext "/jobs/.hidden" = ("/jobs/.hidden", "").
Proof. reflexivity. Qed.

Example posix_join : join "/jobs/a" "design.ifc" = "/jobs/a/design.ifc".
Proof. reflexivity. Qed.

Example posix_dirname_root : dirname "//design.rvt" = "//".
Proof. reflexivity. Qed.

Example ntpath_split : ntpath.split "C:\jobs\a\design.rvt" = ("C:\jobs\a", "design.rvt").
Proof. reflexivity. Qed.

Example ntpath_split_root : ntpath.split "C:\design.rvt" = ("C:\", "design.rvt").
Proof. reflexivity. Qed.

Example ntpath_split_unc :
  ntpath.split "\\server\share\jobs\design.rvt"
  = ("\\server\share\jobs", "design.rvt").
Proof. reflexivity. Qed.

Example ntpath_splitext : ntpath.splitext "C:\jobs.d\design" = ("C:\jobs.d\design", "").
Proof. reflexivity. Qed.

Example ntpath_join : ntpath.join "C:\jobs\a" "design.ifc" = "C:\jobs\a\design.ifc".
Proof. reflexivity. Qed.

Example ntpath_join_other_drive :
  ntpath.join "C:\jobs\a" "D:\exports\out.ifc" = "D:\exports\out.ifc".
Proof. reflexivity. Qed.

Example ntpath_drive_relative_is_not_bare :
  ntpath.dirname "C:result.ifc" = "C:" /\ @bare nt "C:result.ifc" = false.
Proof. split; reflexivity. Qed.

(** Scenario B on Windows, in the batch script. *)
Example scenario_B_windows_run :
  stdout (snd (@rbp_export_ifc.main nt scenario_B_windows (initial ["Wall"])))
  = ["EXPORT_START";
     "INPUT_PATH:C:\jobs\a\design.rvt";
     "OUTPUT_DIR:C:\jobs\a";
     "OUTPUT_NAME:out.ifc";
     "IFC_VERSION:IFC2x3";
     "EXPORT_RESULT:SUCCESS";
     "OUTPUT_PATH:C:\jobs\a\out.ifc"].
Proof. reflexivity. Qed.

(** Scenario A: no sidecar, [design.rvt]. *)
Example scenario_A_run :
  export_ifc.main scenario_A (initial ["Wall"])
  = (Ok tt,
     mkWorld ["EXPORT_START";
              "INPUT_PATH:C:/jobs/a/design.rvt";
              "OUTPUT_DIR:C:/jobs/a";
              "OUTPUT_NAME:design.ifc";
              "IFC_VERSION:IFC4";
              "EXPORT_RESULT:SUCCESS";
              "OUTPUT_PATH:C:/jobs/a/design.ifc"]
             ["Wall"] None RolledBack
             [mkCall (VStr "C:/jobs/a") (VStr "design.ifc") default_options]).
Proof. reflexivity. Qed.

(** Scenario B: the sidecar asks for IFC2x3 and names the output. *)
Example scenario_B_run :
  stdout (snd (rbp_export_ifc.main scenario_B (initial ["Wall"])))
  = ["EXPORT_START";
     "INPUT_PATH:C:/jobs/a/design.rvt";
     "OUTPUT_DIR:C:/jobs/a";
     "OUTPUT_NAME:out.ifc";
     "IFC_VERSION:IFC2x3";
     "EXPORT_RESULT:SUCCESS";
     "OUTPUT_PATH:C:/jobs/a/out.ifc"]
  /\ map (fun c => FileVersion (call_options c))
         (exports (snd (rbp_export_ifc.main scenario_B (initial ["Wall"]))))
     = [IFC2x3CV2].
Proof. split; reflexivity. Qed.

(** Scenario C: the sidecar is not JSON and the exporter reports failure. *)
Example scenario_C_run :
  export_ifc.main scenario_C (initial ["Wall"])
  = (Ok tt,
     mkWorld ["WARN: Could not read params.json: No JSON object could be decoded";
              "EXPORT_START";
              "INPUT_PATH:C:/jobs/a/design.rvt";
              "OUTPUT_DIR:C:/jobs/a";
              "OUTPUT_NAME:design.ifc";
              "IFC_VERSION:IFC4";
              "EXPORT_RESULT:FAILED";
              "ERROR:Revit Document.Export() returned False"]
             ["Wall"] None RolledBack
             [mkCall (VStr "C:/jobs/a") (VStr "design.ifc") default_options]).
Proof. reflexivity. Qed.

(** Scenario D: the exporter raises after it has changed the working
    copy; the change is dropped with the transaction. *)
Example scenario_D_run :
  rbp_export_ifc.main scenario_D (initial ["Wall"])
  = (Ok tt,
     mkWorld ["EXPORT_START";
              "INPUT_PATH:C:/jobs/a/design.rvt";
              "OUTPUT_DIR:C:/jobs/a";
              "OUTPUT_NAME:design.ifc";
              "IFC_VERSION:IFC4";
              "EXPORT_RESULT:ERROR";
              "ERROR:disk full"]
             ["Wall"] None RolledBack
             [mkCall (VStr "C:/jobs/a") (VStr "design.ifc") default_options]).
Proof. reflexivity. Qed.

(** The host model can tell a commit from a roll-back: the same block
    with [Commit] leaves the exporter's change in the saved model. *)
Example commit_would_persist :
  persisted (snd (committing_block host_succeeding default_options (initial ["Wall"])))
  = ["IfcExportTemp"; "Wall"].
Proof. reflexivity. Qed.

(** A document that refuses the transaction gives an [ERROR] outcome and
    no export call. *)
Example refused_transaction_run :
  export_ifc.run_export (mkHost false (Export host_succeeding))
                        (VStr "C:/jobs/a") (VStr "design.ifc") default_options
                        (initial ["Wall"])
  = (Ok tt,
     mkWorld ["EXPORT_RESULT:ERROR"; "ERROR:Cannot start the transaction"]
             ["Wall"] None Uninitialized []).
Proof. reflexivity. Qed.

(** Flags are skipped and a third positional argument is ignored. *)
Example scan_args_example :
  export_ifc.scan_args ["--revit=2023"; "a.rvt"; "--x"; "b.ifc"; "c.ifc"] None None
  = (Some "a.rvt", Some "b.ifc").
Proof. reflexivity. Qed.

(* ====================================================================== *)
(** * The claims on sample invocations *)
(* ====================================================================== *)







(** C6 on a sidecar that asks for [IFC5]. *)
Lemma ifcVersion_resolution_total_witness :
  field_is is_str "ifcVersion" [("ifcVersion", VStr "IFC5")] = true
  /\ exists o,
      export_ifc_build (VDict [("ifcVersion", VStr "IFC5")]) = Ok o
      /\ rbp_build (VDict [("ifcVersion", VStr "IFC5")]) = Ok o
      /\ FileVersion o = IFC4
      /\ ("IFC5" <> "IFC2x3" -> "IFC5" <> "IFC4" -> FileVersion o = IFC4).
Proof.
  split; [reflexivity | ].
  exact (ifcVersion_resolution_total [("ifcVersion", VStr "IFC5")] eq_refl).
Defined.

(** C7 on scenario C. *)
Lemma sidecar_unreadable_witness :
  files scenario_C (export_ifc.params_path scenario_C)
  = Some (Raise (ValueError "No JSON object could be decoded"))
  /\ export_ifc.params scenario_C (initial ["Wall"])
     = (Ok (VDict []),
        printed ["WARN: Could not read params.json: No JSON object could be decoded"]
                (initial ["Wall"]))
  /\ count_lines "WARN:" (stdout (snd (export_ifc.main scenario_C (initial ["Wall"]))))
     = 1.
Proof.
  assert (Hfile : files scenario_C (export_ifc.params_path scenario_C)
                  = Some (Raise (ValueError "No JSON object could be decoded")))
    by reflexivity.
  assert (Hpath : truthy (export_ifc.input_path scenario_C) = true)
    by reflexivity.
  split; [exact Hfile | ].
  destruct (proj2 (proj2 (proj2 (sidecar_missing_or_unreadable
                                   scenario_C (initial ["Wall"]) ["Wall"])))
              (ValueError "No JSON object could be decoded") Hpath Hfile)
    as (Hparams & _ & _ & Hcount & _).
  split; [exact Hparams | exact Hcount].
Defined.

(** C8: a sidecar that tries to set [SitePlacement] builds the same
    options as the empty sidecar. *)
Lemma fixed_options_witness :
  export_ifc_build (VDict [("SitePlacement", VStr "1")]) = export_ifc_build (VDict [])
  /\ exists o, export_ifc_build (VDict [("SitePlacement", VStr "1")]) = Ok o
               /\ AddedOptions o = fixed_options.
Proof.
  destruct fixed_options_unconditional as (Hadded & Hbuilt & Hsame & _).
  split.
  - apply (Hsame [("SitePlacement", VStr "1")] []). repeat split.
  - destruct (Hbuilt (VDict [("SitePlacement", VStr "1")]) eq_refl) as (o & Ho & _).
    exists o. split; [exact Ho | ].
    apply (Hadded (VDict [("SitePlacement", VStr "1")])). now left.
Defined.



(** C10 on an explicit output path [result.ifc], next to a sidecar that
    names another directory: with [posixpath], and with [ntpath] on
    Windows paths. *)
Lemma bare_output_name_witness :
  nth_error (positional bare_output) 1 = Some "result.ifc"
  /\ bare "result.ifc" = true
  /\ export_ifc.output_dir (export_ifc_loaded bare_output)
                           (export_ifc.input_path bare_output)
                           (export_ifc.output_path bare_output)
     = Ok (VStr "")
  /\ stdout (snd (export_ifc.main bare_output (initial ["Wall"])))
     = ["EXPORT_START";
        "INPUT_PATH:C:/jobs/a/design.rvt";
        "OUTPUT_DIR:";
        "OUTPUT_NAME:result.ifc";
        "IFC_VERSION:IFC4";
        "EXPORT_RESULT:SUCCESS";
        "OUTPUT_PATH:result.ifc"]
  /\ stdout (snd (@export_ifc.main nt bare_output_windows (initial ["Wall"])))
     = ["EXPORT_START";
        "INPUT_PATH:C:\jobs\a\design.rvt";
        "OUTPUT_DIR:";
        "OUTPUT_NAME:result.ifc";
        "IFC_VERSION:IFC4";
        "EXPORT_RESULT:SUCCESS";
        "OUTPUT_PATH:result.ifc"].
Proof.
  split; [reflexivity | split; [reflexivity | ]].
  assert (Hpos : nth_error (positional bare_output) 1 = Some "result.ifc")
    by reflexivity.
  assert (Hok : sidecar_ok (files bare_output) (export_ifc.params_path bare_output)
                = true) by reflexivity.
  assert (Hname : truthy "result.ifc" = true) by reflexivity.
  assert (Hbare : bare "result.ifc" = true) by reflexivity.
  destruct (bare_output_name bare_output ["Wall"] "result.ifc"
              Hpos Hname Hbare Hok)
    as (Hdir & _ & Hout & _).
  assert (Hpos' : nth_error (positional bare_output_windows) 1 = Some "result.ifc")
    by reflexivity.
  assert (Hok' : sidecar_ok (files bare_output_windows)
                            (@export_ifc.params_path nt bare_output_windows)
                 = true) by reflexivity.
  assert (Hbare' : @bare nt "result.ifc" = true) by reflexivity.
  destruct (@bare_output_name nt nt_laws bare_output_windows ["Wall"] "result.ifc"
              Hpos' Hname Hbare' Hok')
    as (_ & _ & Hout' & _).
  split; [exact Hdir | split; [exact Hout | exact Hout']].
Defined.

(* ====================================================================== *)
(** * Further properties of the scripts *)
(* ====================================================================== *)

Section Further.
Context {P : OsPath}.

(** ** Arguments *)

Lemma nth_error_firstn_2 {A} (l l' : list A) :
  firstn 2 l = firstn 2 l' ->
  nth_error l 0 = nth_error l' 0 /\ nth_error l 1 = nth_error l' 1.
Proof.
  destruct l as [ | a [ | b l]]; destruct l' as [ | a' [ | b' l']];
    simpl; intros H; inversion H; auto.
Qed.

Lemma input_path_positional (inv : Invocation) :
  export_ifc.input_path inv
  = match nth_error (positional inv) 0 with
    | Some arg => if truthy arg then arg else PathName inv
    | None => PathName inv
    end.
Proof.
  unfold export_ifc.input_path, positional.
  now rewrite scan_args_positional.
Qed.

(** What the interactive script does is fixed by its first two
    positional arguments, the files, the document and the host. *)
Lemma export_ifc_main_ext (inv inv' : Invocation) (w : World) :
  export_ifc.input_path inv = export_ifc.input_path inv' ->
  export_ifc.output_path inv = export_ifc.output_path inv' ->
  files inv (export_ifc.params_path inv) = files inv' (export_ifc.params_path inv') ->
  PathName inv = PathName inv' ->
  host inv = host inv' ->
  export_ifc.main inv w = export_ifc.main inv' w.
Proof.
  intros Hin Hout Hfile Hpath Hhost.
  rewrite !export_ifc_main_run.
  unfold export_ifc_loaded, export_ifc_warnings, loaded, warnings.
  now rewrite Hin, Hout, Hfile, Hpath, Hhost.
Qed.

(** X1.  The interactive script looks at its arguments only through the
    first two that do not start with [--]: flags may stand anywhere, and
    a third positional argument and all later ones are ignored.  Two
    argument lists with the same first two positional arguments give the
    same run. *)
Theorem only_two_positionals_count (inv : Invocation) (args : list string)
        (w : World) :
  firstn 2 (positional (with_argv args inv)) = firstn 2 (positional inv) ->
  export_ifc.main (with_argv args inv) w = export_ifc.main inv w.
Proof.
  intros H. destruct (nth_error_firstn_2 _ _ H) as [H0 H1].
  assert (Hin : export_ifc.input_path (with_argv args inv)
                = export_ifc.input_path inv).
  { rewrite !input_path_positional. rewrite H0. reflexivity. }
  apply export_ifc_main_ext; try reflexivity.
  - exact Hin.
  - now rewrite !output_path_positional.
  - unfold export_ifc.params_path. now rewrite Hin.
Qed.

(** The fallback of line 112 is idle. *)
Lemma py_or_input_path (inv : Invocation) :
  py_or (export_ifc.input_path inv) (PathName inv) = export_ifc.input_path inv.
Proof.
  rewrite input_path_positional. unfold py_or.
  destruct (nth_error (positional inv) 0) as [arg | ].
  - destruct (truthy arg) eqn:Harg; [now rewrite Harg | ].
    now destruct (truthy (PathName inv)).
  - now destruct (truthy (PathName inv)).
Qed.

(** X2.  The input path of the interactive script is its first positional
    argument when there is one and it is not empty, and the document's
    path otherwise; an empty first argument still fills the slot, so the
    next positional argument is the output path.  The fallback in the
    [INPUT_PATH:] line, [input_path or doc.PathName], never changes what
    is printed. *)
Theorem input_path_falls_back_to_document (inv : Invocation) :
  export_ifc.input_path inv
  = match nth_error (positional inv) 0 with
    | Some arg => if truthy arg then arg else PathName inv
    | None => PathName inv
    end
  /\ export_ifc.output_path inv = nth_error (positional inv) 1
  /\ py_or (export_ifc.input_path inv) (PathName inv) = export_ifc.input_path inv.
Proof.
  split; [ | split].
  - unfold export_ifc.input_path, positional.
    now rewrite scan_args_positional.
  - unfold export_ifc.output_path, positional.
    now rewrite scan_args_positional.
  - apply py_or_input_path.
Qed.

(** ** The loader *)

(** X3.  Reading the sidecar never raises, in either script and whatever
    is on disk: it leaves a value in [params] and prints nothing or one
    [WARN:] line, and changes nothing else.  A file that can be read is
    taken as it is, with no check of its shape, and nothing is printed. *)
Theorem loader_never_raises (inv : Invocation) (w : World) :
  (exists v warn,
      export_ifc.params inv w = (Ok v, printed warn w)
      /\ (warn = [] \/ exists msg, warn = ["WARN: Could not read params.json: " +++ msg])
      /\ (forall x,
             truthy (export_ifc.input_path inv) = true ->
             files inv (export_ifc.params_path inv) = Some (Ok x) ->
             v = x /\ warn = []))
  /\ (exists v warn,
         rbp_export_ifc.params inv w = (Ok v, printed warn w)
         /\ (warn = [] \/ exists msg, warn = ["WARN: Could not read params.json: " +++ msg])
         /\ (forall x,
                files inv (rbp_export_ifc.params_path inv) = Some (Ok x) ->
                v = x /\ warn = [])).
Proof.
  split.
  - exists (export_ifc_loaded inv), (export_ifc_warnings inv).
    split; [apply export_ifc_params_run | split; [apply export_ifc_warnings_shape | ]].
    intros x Ht Hf. unfold export_ifc_loaded, export_ifc_warnings, loaded, warnings.
    now rewrite Ht, Hf.
  - exists (loaded (files inv) (rbp_export_ifc.params_path inv)),
           (warnings (files inv) (rbp_export_ifc.params_path inv)).
    split; [apply rbp_params_run | split; [apply warnings_shape | ]].
    intros x Hf. unfold loaded, warnings. now rewrite Hf.
Qed.

(** X4.  The only file either script looks at is [params.json] in the
    directory of its input path: two file systems that hold the same
    thing at that one path give the same run. *)
Theorem only_the_sidecar_is_read (inv : Invocation) (fs : FileSystem) (w : World) :
  (fs (export_ifc.params_path inv) = files inv (export_ifc.params_path inv) ->
   export_ifc.main (with_files fs inv) w = export_ifc.main inv w)
  /\ (fs (rbp_export_ifc.params_path inv) = files inv (rbp_export_ifc.params_path inv) ->
      rbp_export_ifc.main (with_files fs inv) w = rbp_export_ifc.main inv w).
Proof.
  split; intros H.
  - apply export_ifc_main_ext; try reflexivity. exact H.
  - rewrite !rbp_main_run. unfold loaded, warnings.
    change (rbp_export_ifc.params_path (with_files fs inv))
      with (rbp_export_ifc.params_path inv).
    change (files (with_files fs inv)) with fs.
    now rewrite H.
Qed.

(** ** Where a run can stop *)

Lemma py_concat_ok (prefix : string) (v : value) (line : string) :
  py_concat prefix v = Ok line -> exists s, v = VStr s /\ line = prefix +++ s.
Proof.
  destruct v; simpl; try discriminate.
  intros H. injection H as <-. now eexists.
Qed.

(** The pipeline when the three printed values are strings. *)
Lemma pipeline_strings (h : Host) (input_line input_path : string)
      (output_path : option string) (params : value) (w : World)
      (key dir name : string) (opts : IFCExportOptions) :
  export_ifc.version_key params = Ok (VStr key) ->
  export_ifc.options params (if String.eqb key "IFC2x3" then IFC2x3CV2 else IFC4)
  = Ok opts ->
  export_ifc.output_dir params input_path output_path = Ok (VStr dir) ->
  export_ifc.output_name params input_path output_path = Ok (VStr name) ->
  working w = None ->
  pipeline h input_line input_path output_path params w
  = (Ok tt,
     mkWorld (stdout w ++ status_lines input_line dir name key
                            (outcome_of h (persisted w) dir name opts))
             (persisted w) None (final_status h)
             (exports w ++ calls_of h dir name opts)).
Proof.
  intros Hkey Hopts Hdir Hname Hw.
  unfold pipeline.
  rewrite bind_lift, Hkey, bind_lift, ifc_version_str, bind_lift, Hopts.
  rewrite bind_lift, Hdir, bind_lift, Hname.
  unfold py_concat.
  rewrite !bind_print, printed_app, bind_lift, bind_print, printed_app.
  rewrite bind_lift, bind_print, printed_app, bind_lift, bind_print, printed_app.
  rewrite run_export_strings by exact Hw.
  unfold status_lines, header_lines. simpl. now rewrite <- app_assoc.
Qed.

(** Every way the pipeline can end: with an exception, having printed a
    part of the header and nothing more, or normally, having printed the
    whole report. *)
Lemma pipeline_outcomes (h : Host) (input_line input_path : string)
      (output_path : option string) (params : value) (w : World) :
  working w = None ->
  (exists ex lines,
      pipeline h input_line input_path output_path params w
      = (Raise ex, printed lines w)
      /\ count_lines "EXPORT_RESULT:" lines = 0)
  \/
  (exists dir name key opts,
      pipeline h input_line input_path output_path params w
      = (Ok tt,
         mkWorld (stdout w ++ status_lines input_line dir name key
                                (outcome_of h (persisted w) dir name opts))
                 (persisted w) None (final_status h)
                 (exports w ++ calls_of h dir name opts))).
Proof.
  intros Hw.
  destruct (export_ifc.version_key params) as [key | ex] eqn:Hkey;
    [ | left; exists ex, []; unfold pipeline;
        rewrite bind_lift, Hkey, printed_nil; now split].
  destruct (export_ifc.ifc_version key) as [v | ex] eqn:Hv;
    [ | left; exists ex, []; unfold pipeline;
        rewrite bind_lift, Hkey, bind_lift, Hv, printed_nil; now split].
  destruct (export_ifc.options params v) as [opts | ex] eqn:Hopts;
    [ | left; exists ex, []; unfold pipeline;
        rewrite bind_lift, Hkey, bind_lift, Hv, bind_lift, Hopts, printed_nil;
        now split].
  destruct (export_ifc.output_dir params input_path output_path)
    as [dir | ex] eqn:Hdir;
    [ | left; exists ex, []; unfold pipeline;
        rewrite bind_lift, Hkey, bind_lift, Hv, bind_lift, Hopts, bind_lift, Hdir,
          printed_nil; now split].
  destruct (export_ifc.output_name params input_path output_path)
    as [name | ex] eqn:Hname;
    [ | left; exists ex, []; unfold pipeline;
        rewrite bind_lift, Hkey, bind_lift, Hv, bind_lift, Hopts, bind_lift, Hdir,
          bind_lift, Hname, printed_nil; now split].
  assert (Hrun : pipeline h input_line input_path output_path params w
                 = (line <- lift (py_concat "OUTPUT_DIR:" dir) ;;
                    print line ;;
                    line <- lift (py_concat "OUTPUT_NAME:" name) ;;
                    print line ;;
                    line <- lift (py_concat "IFC_VERSION:" key) ;;
                    print line ;;
                    export_ifc.run_export h dir name opts)
                     (printed ["EXPORT_START"; "INPUT_PATH:" +++ input_line] w)).
  { unfold pipeline.
    rewrite bind_lift, Hkey, bind_lift, Hv, bind_lift, Hopts, bind_lift, Hdir,
      bind_lift, Hname.
    now rewrite !bind_print, printed_app. }
  destruct (py_concat "OUTPUT_DIR:" dir) as [line1 | ex] eqn:H1.
  2:{ left. exists ex, ["EXPORT_START"; "INPUT_PATH:" +++ input_line].
      rewrite Hrun, bind_lift. now split. }
  destruct (py_concat_ok _ _ _ H1) as (d & -> & ->).
  destruct (py_concat "OUTPUT_NAME:" name) as [line2 | ex] eqn:H2.
  2:{ left. exists ex, ["EXPORT_START"; "INPUT_PATH:" +++ input_line;
                        "OUTPUT_DIR:" +++ d].
      rewrite Hrun, bind_lift, bind_print, printed_app, bind_lift.
      now split. }
  destruct (py_concat_ok _ _ _ H2) as (n & -> & ->).
  destruct (py_concat "IFC_VERSION:" key) as [line3 | ex] eqn:H3.
  2:{ left. exists ex, ["EXPORT_START"; "INPUT_PATH:" +++ input_line;
                        "OUTPUT_DIR:" +++ d; "OUTPUT_NAME:" +++ n].
      rewrite Hrun, bind_lift, bind_print, printed_app, bind_lift,
        bind_print, printed_app, bind_lift.
      now split. }
  destruct (py_concat_ok _ _ _ H3) as (k & -> & ->).
  right. exists d, n, k, opts.
  rewrite ifc_version_str in Hv. injection Hv as <-.
  now apply pipeline_strings.
Qed.

(** ** Sidecars outside the contract *)

Lemma pipeline_not_dict (h : Host) (input_line input_path : string)
      (output_path : option string) (v : value) (w : World) :
  is_dict v = false ->
  exists msg,
    pipeline h input_line input_path output_path v w = (Raise (AttributeError msg), w).
Proof.
  intros H. unfold pipeline. rewrite bind_lift.
  destruct v; try discriminate; eexists; reflexivity.
Qed.

(** X5.  When [params.json] can be read but holds anything else than a
    JSON object (a list, a string, a number, [true], [false], [null]),
    either script raises [AttributeError] at its first [params.get]: it
    has printed nothing, made no export call and opened no transaction. *)
Theorem non_object_sidecar_raises (inv : Invocation) (m : Model) (v : value) :
  is_dict v = false ->
  (truthy (export_ifc.input_path inv) = true ->
   files inv (export_ifc.params_path inv) = Some (Ok v) ->
   exists msg,
     export_ifc.main inv (initial m) = (Raise (AttributeError msg), initial m))
  /\ (files inv (rbp_export_ifc.params_path inv) = Some (Ok v) ->
      exists msg,
        rbp_export_ifc.main inv (initial m) = (Raise (AttributeError msg), initial m)).
Proof.
  intros Hv. split.
  - intros Ht Hf. rewrite export_ifc_main_run.
    unfold export_ifc_loaded, export_ifc_warnings, loaded, warnings.
    rewrite Ht, Hf, printed_nil. now apply pipeline_not_dict.
  - intros Hf. rewrite rbp_main_run. unfold loaded, warnings.
    rewrite Hf, printed_nil. now apply pipeline_not_dict.
Qed.

Lemma pipeline_unhashable (h : Host) (input_line input_path : string)
      (output_path : option string) (entries : list (string * value))
      (k : value) (w : World) :
  lookup "ifcVersion" entries = Some k ->
  hashable k = false ->
  exists msg,
    pipeline h input_line input_path output_path (VDict entries) w
    = (Raise (TypeError msg), w).
Proof.
  intros Hk Hh. unfold pipeline, export_ifc.version_key, py_get.
  rewrite bind_lift, Hk, bind_lift.
  unfold export_ifc.ifc_version, table_get. rewrite Hh.
  eexists; reflexivity.
Qed.

(** X6.  When the sidecar's [ifcVersion] is a list or an object, the
    lookup in [IFC_VERSIONS] raises [TypeError] (the key cannot be
    hashed): either script stops there, having printed nothing and made
    no export call. *)
Theorem unhashable_version_raises (inv : Invocation) (m : Model)
        (entries : list (string * value)) (k : value) :
  lookup "ifcVersion" entries = Some k ->
  hashable k = false ->
  (truthy (export_ifc.input_path inv) = true ->
   files inv (export_ifc.params_path inv) = Some (Ok (VDict entries)) ->
   exists msg,
     export_ifc.main inv (initial m) = (Raise (TypeError msg), initial m))
  /\ (files inv (rbp_export_ifc.params_path inv) = Some (Ok (VDict entries)) ->
      exists msg,
        rbp_export_ifc.main inv (initial m) = (Raise (TypeError msg), initial m)).
Proof.
  intros Hk Hh. split.
  - intros Ht Hf. rewrite export_ifc_main_run.
    unfold export_ifc_loaded, export_ifc_warnings, loaded, warnings.
    rewrite Ht, Hf, printed_nil. now apply (pipeline_unhashable _ _ _ _ _ k).
  - intros Hf. rewrite rbp_main_run. unfold loaded, warnings.
    rewrite Hf, printed_nil. now apply (pipeline_unhashable _ _ _ _ _ k).
Qed.

Lemma output_dir_dict (entries : list (string * value)) (input_path : string)
      (output_path : option string) :
  field_is is_str "outputDir" entries = true ->
  export_ifc.output_dir (VDict entries) input_path output_path
  = Ok (VStr (resolved_dir (VDict entries) input_path output_path)).
Proof.
  intros Hd.
  unfold export_ifc.output_dir, resolved_dir, str_field, py_get, truthy_opt.
  destruct output_path as [p | ]; [destruct (truthy p); [reflexivity | ] | ];
    destruct (field_is_str _ _ Hd) as [-> | [s ->]]; reflexivity.
Qed.

Lemma output_name_dict (entries : list (string * value)) (input_path : string)
      (output_path : option string) :
  field_is is_str "outputName" entries = true ->
  export_ifc.output_name (VDict entries) input_path output_path
  = Ok (VStr (resolved_name (VDict entries) input_path output_path)).
Proof.
  intros Hn.
  unfold export_ifc.output_name, resolved_name, str_field, py_get, truthy_opt.
  destruct output_path as [p | ]; [destruct (truthy p); [reflexivity | ] | ];
    destruct (field_is_str _ _ Hn) as [-> | [s ->]]; reflexivity.
Qed.

Lemma pipeline_version_not_str (h : Host) (input_line input_path : string)
      (output_path : option string) (entries : list (string * value))
      (k : value) (w : World) :
  lookup "ifcVersion" entries = Some k ->
  hashable k = true ->
  is_str k = false ->
  field_is is_str "outputDir" entries = true ->
  field_is is_str "outputName" entries = true ->
  exists msg,
    pipeline h input_line input_path output_path (VDict entries) w
    = (Raise (TypeError msg),
       printed ["EXPORT_START";
                "INPUT_PATH:" +++ input_line;
                "OUTPUT_DIR:" +++ resolved_dir (VDict entries) input_path output_path;
                "OUTPUT_NAME:" +++ resolved_name (VDict entries) input_path output_path]
               w).
Proof.
  intros Hk Hh Hs Hd Hn.
  unfold pipeline, export_ifc.version_key, py_get.
  rewrite bind_lift, Hk, bind_lift.
  assert (Hv : export_ifc.ifc_version k = Ok IFC4)
    by (destruct k; try discriminate; reflexivity).
  rewrite Hv, bind_lift, options_dict.
  rewrite bind_lift, (output_dir_dict _ _ _ Hd).
  rewrite bind_lift, (output_name_dict _ _ _ Hn).
  rewrite !bind_print, printed_app. unfold py_concat at 1.
  rewrite bind_lift, bind_print, printed_app. unfold py_concat at 1.
  rewrite bind_lift, bind_print, printed_app, bind_lift.
  destruct k; try discriminate; eexists; reflexivity.
Qed.

(** X7.  When the sidecar's [ifcVersion] is a number, a boolean or
    [null] (and [outputDir] and [outputName] are strings or absent), the
    lookup in [IFC_VERSIONS] does not raise and the options are built
    for [IFC4]; but the run stops with [TypeError] at the [IFC_VERSION:]
    line, after four header lines and before the transaction: no export
    call is made. *)
Theorem non_string_version_stops_the_header (inv : Invocation) (m : Model)
        (entries : list (string * value)) (k : value) :
  lookup "ifcVersion" entries = Some k ->
  hashable k = true ->
  is_str k = false ->
  field_is is_str "outputDir" entries = true ->
  field_is is_str "outputName" entries = true ->
  (exists o, export_ifc_build (VDict entries) = Ok o /\ FileVersion o = IFC4)
  /\ (truthy (export_ifc.input_path inv) = true ->
      files inv (export_ifc.params_path inv) = Some (Ok (VDict entries)) ->
      exists msg,
        export_ifc.main inv (initial m)
        = (Raise (TypeError msg),
           printed ["EXPORT_START";
                    "INPUT_PATH:" +++ export_ifc.input_path inv;
                    "OUTPUT_DIR:" +++ resolved_dir (VDict entries)
                                        (export_ifc.input_path inv)
                                        (export_ifc.output_path inv);
                    "OUTPUT_NAME:" +++ resolved_name (VDict entries)
                                         (export_ifc.input_path inv)
                                         (export_ifc.output_path inv)]
                   (initial m)))
  /\ (files inv (rbp_export_ifc.params_path inv) = Some (Ok (VDict entries)) ->
      exists msg,
        rbp_export_ifc.main inv (initial m)
        = (Raise (TypeError msg),
           printed ["EXPORT_START";
                    "INPUT_PATH:" +++ PathName inv;
                    "OUTPUT_DIR:" +++ resolved_dir (VDict entries) (PathName inv) None;
                    "OUTPUT_NAME:" +++ resolved_name (VDict entries) (PathName inv) None]
                   (initial m))).
Proof.
  intros Hk Hh Hs Hd Hn. split; [ | split].
  - unfold export_ifc_build, export_ifc.version_key, py_get. rewrite Hk.
    assert (Hv : export_ifc.ifc_version k = Ok IFC4)
      by (destruct k; try discriminate; reflexivity).
    rewrite Hv, options_dict. eexists. split; reflexivity.
  - intros Ht Hf. rewrite export_ifc_main_run.
    unfold export_ifc_loaded, export_ifc_warnings, loaded, warnings.
    rewrite Ht, Hf, printed_nil.
    unfold py_or. rewrite Ht.
    now apply (pipeline_version_not_str _ _ _ _ _ k).
  - intros Hf. rewrite rbp_main_run. unfold loaded, warnings.
    rewrite Hf, printed_nil.
    now apply (pipeline_version_not_str _ _ _ _ _ k).
Qed.

(** X8.  An explicit output path makes the sidecar's [outputDir] and
    [outputName] irrelevant even when they are not strings: with a second
    positional argument that is not empty and a sidecar object whose
    [ifcVersion] is a string or absent and whose two flags are booleans or
    absent, the interactive script ends normally and reports and exports
    the directory and file name of the explicit path, whatever stands
    under [outputDir] and [outputName]. *)
Theorem explicit_output_overrides_any_sidecar_location
        (inv : Invocation) (m : Model) (entries : list (string * value))
        (p : string) :
  explicit_output inv = Some p ->
  export_ifc_loaded inv = VDict entries ->
  field_is is_str "ifcVersion" entries = true ->
  field_is is_bool "wallSplitting" entries = true ->
  field_is is_bool "exportBaseQuantities" entries = true ->
  let opts := resolved_options (VDict entries) in
  export_ifc.main inv (initial m)
  = (Ok tt,
     mkWorld (export_ifc_warnings inv
              ++ status_lines (export_ifc.input_path inv) (dirname p) (basename p)
                   (resolved_key (VDict entries))
                   (outcome_of (host inv) m (dirname p) (basename p) opts))
             m None (final_status (host inv))
             (calls_of (host inv) (dirname p) (basename p) opts)).
Proof.
  intros Hp Hl Hv _ _ opts.
  pose proof (truthy_output_path inv) as Hout. rewrite Hp in Hout.
  destruct Hout as [Hout Htruthy].
  rewrite export_ifc_main_run, Hl, Hout.
  rewrite py_or_input_path.
  rewrite (pipeline_strings _ _ _ _ _ _ (resolved_key (VDict entries))
             (dirname p) (basename p) opts).
  - reflexivity.
  - unfold export_ifc.version_key, resolved_key, str_field, py_get.
    destruct (field_is_str _ _ Hv) as [-> | [s ->]]; reflexivity.
  - apply options_dict.
  - unfold export_ifc.output_dir, py_get. now rewrite Htruthy.
  - unfold export_ifc.output_name, py_get. now rewrite Htruthy.
  - reflexivity.
Qed.

(** ** What every run keeps *)

(** A run of the pipeline from the start of a script, after the loader
    has printed its warning if any. *)
Lemma run_classified (h : Host) (input_line input_path : string)
      (output_path : option string) (params : value) (warn : list string)
      (m : Model) :
  (warn = [] \/ exists msg, warn = ["WARN: Could not read params.json: " +++ msg]) ->
  let r := pipeline h input_line input_path output_path params
                    (printed warn (initial m)) in
  (exists ex,
      fst r = Raise ex
      /\ count_lines "EXPORT_RESULT:" (stdout (snd r)) = 0
      /\ exports (snd r) = []
      /\ status (snd r) = Uninitialized)
  \/
  (exists dir name key opts,
      fst r = Ok tt
      /\ stdout (snd r)
         = warn ++ status_lines input_line dir name key
                     (outcome_of h m dir name opts)
      /\ count_lines "EXPORT_RESULT:" (stdout (snd r)) = 1
      /\ exports (snd r) = calls_of h dir name opts).
Proof.
  intros Hwarn r. subst r.
  assert (Hcw : count_lines "EXPORT_RESULT:" warn = 0)
    by (destruct Hwarn as [-> | [msg ->]]; reflexivity).
  destruct (pipeline_outcomes h input_line input_path output_path params
              (printed warn (initial m)) eq_refl)
    as [(ex & lines & -> & Hlines) | (dir & name & key & opts & ->)].
  - left. exists ex. simpl.
    rewrite count_lines_app, Hcw, Hlines. auto.
  - right. exists dir, name, key, opts. simpl.
    repeat split.
    rewrite count_lines_app, Hcw.
    destruct (outcome_of h m dir name opts); reflexivity.
Qed.


Lemma exported_is_reported (h : Host) (input_line input_path : string)
      (output_path : option string) (params : value) (warn : list string)
      (m : Model) (c : ExportCall) :
  (warn = [] \/ exists msg, warn = ["WARN: Could not read params.json: " +++ msg]) ->
  let r := pipeline h input_line input_path output_path params
                    (printed warn (initial m)) in
  In c (exports (snd r)) ->
  exports (snd r) = [c]
  /\ fst r = Ok tt
  /\ exists dir name,
      call_folder c = VStr dir /\ call_name c = VStr name
      /\ In ("OUTPUT_DIR:" +++ dir) (stdout (snd r))
      /\ In ("OUTPUT_NAME:" +++ name) (stdout (snd r)).
Proof.
  intros Hwarn r Hin.
  destruct (run_classified h input_line input_path output_path params warn m Hwarn)
    as [(ex & _ & _ & He & _) | (dir & name & key & opts & Hf & Hout & _ & He)];
    fold r in He; rewrite He in Hin.
  - contradiction.
  - fold r in Hf, Hout. rewrite He, Hout.
    unfold calls_of in *. destruct (accepts_transaction h); [ | contradiction].
    destruct Hin as [<- | []].
    split; [reflexivity | split; [exact Hf | ]].
    exists dir, name. simpl.
    repeat split; apply in_or_app; right; simpl; auto.
Qed.

(** X10.  In any run of either script the host receives at most one
    export call, and only in a run that ends normally; the folder and the
    file name it receives are strings, the very ones printed in the
    [OUTPUT_DIR:] and [OUTPUT_NAME:] lines. *)
Theorem exported_location_is_the_reported_one (inv : Invocation) (m : Model)
        (c : ExportCall) :
  (In c (exports (snd (export_ifc.main inv (initial m)))) ->
   exports (snd (export_ifc.main inv (initial m))) = [c]
   /\ fst (export_ifc.main inv (initial m)) = Ok tt
   /\ exists dir name,
       call_folder c = VStr dir /\ call_name c = VStr name
       /\ In ("OUTPUT_DIR:" +++ dir) (stdout (snd (export_ifc.main inv (initial m))))
       /\ In ("OUTPUT_NAME:" +++ name) (stdout (snd (export_ifc.main inv (initial m)))))
  /\
  (In c (exports (snd (rbp_export_ifc.main inv (initial m)))) ->
   exports (snd (rbp_export_ifc.main inv (initial m))) = [c]
   /\ fst (rbp_export_ifc.main inv (initial m)) = Ok tt
   /\ exists dir name,
       call_folder c = VStr dir /\ call_name c = VStr name
       /\ In ("OUTPUT_DIR:" +++ dir) (stdout (snd (rbp_export_ifc.main inv (initial m))))
       /\ In ("OUTPUT_NAME:" +++ name)
             (stdout (snd (rbp_export_ifc.main inv (initial m))))).
Proof.
  rewrite export_ifc_main_run, rbp_main_run. split.
  - apply exported_is_reported, export_ifc_warnings_shape.
  - apply exported_is_reported, warnings_shape.
Qed.

(** X11.  [t.Start()] stands inside the [try] block before [doc.Export]:
    when the document refuses the transaction, no export call is made in
    any run of either script, and on a documented sidecar the run still
    ends normally, with [EXPORT_RESULT:ERROR] and an [ERROR:] line as its
    last two lines. *)
Theorem refused_transaction_is_reported (inv : Invocation) (m : Model) :
  accepts_transaction (host inv) = false ->
  (exports (snd (export_ifc.main inv (initial m))) = []
   /\ exports (snd (rbp_export_ifc.main inv (initial m))) = [])
  /\ (sidecar_ok (files inv) (export_ifc.params_path inv) = true ->
      fst (export_ifc.main inv (initial m)) = Ok tt
      /\ exists before msg,
          stdout (snd (export_ifc.main inv (initial m)))
          = before ++ ["EXPORT_RESULT:ERROR"; "ERROR:" +++ msg])
  /\ (sidecar_ok (files inv) (rbp_export_ifc.params_path inv) = true ->
      fst (rbp_export_ifc.main inv (initial m)) = Ok tt
      /\ exists before msg,
          stdout (snd (rbp_export_ifc.main inv (initial m)))
          = before ++ ["EXPORT_RESULT:ERROR"; "ERROR:" +++ msg]).
Proof.
  intros Hacc. split; [ | split].
  - rewrite export_ifc_main_run, rbp_main_run. split.
    + destruct (run_classified (host inv)
                  (py_or (export_ifc.input_path inv) (PathName inv))
                  (export_ifc.input_path inv) (export_ifc.output_path inv)
                  (export_ifc_loaded inv) (export_ifc_warnings inv) m
                  (export_ifc_warnings_shape inv))
        as [(ex & _ & _ & He & _) | (d & n & k & o & _ & _ & _ & He)];
        rewrite He; [reflexivity | ].
      unfold calls_of. now rewrite Hacc.
    + destruct (run_classified (host inv) (PathName inv) (PathName inv) None
                  (loaded (files inv) (rbp_export_ifc.params_path inv))
                  (warnings (files inv) (rbp_export_ifc.params_path inv)) m
                  (warnings_shape _ _))
        as [(ex & _ & _ & He & _) | (d & n & k & o & _ & _ & _ & He)];
        rewrite He; [reflexivity | ].
      unfold calls_of. now rewrite Hacc.
  - intros Hok. rewrite (export_ifc_main_ok inv m Hok). simpl.
    split; [reflexivity | ].
    unfold report, status_lines, outcome_of. rewrite Hacc, app_assoc.
    now eexists _, _.
  - intros Hok. rewrite (rbp_main_ok inv m Hok). simpl.
    split; [reflexivity | ].
    unfold report, status_lines, outcome_of. rewrite Hacc, app_assoc.
    now eexists _, _.
Qed.

(** ** What a run takes from the sidecar *)

Lemma pipeline_same_fields (h : Host) (input_line input_path : string)
      (output_path : option string) (a b : list (string * value)) (w : World) :
  same_effective_fields input_path a b ->
  pipeline h input_line input_path output_path (VDict a) w
  = pipeline h input_line input_path output_path (VDict b) w.
Proof.
  intros (Hv & Hw & Hq & Hd & Hn). unfold field in *.
  unfold pipeline, export_ifc.version_key, export_ifc.options,
    export_ifc.output_dir, export_ifc.output_name, py_get.
  now rewrite Hv, Hw, Hq, Hd, Hn.
Qed.

(** X12.  A run takes from a sidecar object nothing but the values of
    [ifcVersion], [wallSplitting], [exportBaseQuantities], [outputDir]
    and [outputName], each replaced by its default when the key is
    absent: two sidecars that give the same five values give the same
    run.  So a key outside these five changes nothing, and writing a
    default out is the same as leaving the key away. *)
Theorem run_depends_on_five_fields (inv : Invocation) (fs : FileSystem)
        (a b : list (string * value)) (w : World) :
  (truthy (export_ifc.input_path inv) = true ->
   files inv (export_ifc.params_path inv) = Some (Ok (VDict a)) ->
   fs (export_ifc.params_path inv) = Some (Ok (VDict b)) ->
   same_effective_fields (export_ifc.input_path inv) a b ->
   export_ifc.main (with_files fs inv) w = export_ifc.main inv w)
  /\ (files inv (rbp_export_ifc.params_path inv) = Some (Ok (VDict a)) ->
      fs (rbp_export_ifc.params_path inv) = Some (Ok (VDict b)) ->
      same_effective_fields (PathName inv) a b ->
      rbp_export_ifc.main (with_files fs inv) w = rbp_export_ifc.main inv w).
Proof.
  split.
  - intros Ht Ha Hb Hsame. rewrite !export_ifc_main_run.
    unfold export_ifc_loaded, export_ifc_warnings, loaded, warnings.
    change (export_ifc.input_path (with_files fs inv))
      with (export_ifc.input_path inv).
    change (export_ifc.params_path (with_files fs inv))
      with (export_ifc.params_path inv).
    change (files (with_files fs inv)) with fs.
    rewrite Ht, Ha, Hb. symmetry. now apply pipeline_same_fields.
  - intros Ha Hb Hsame. rewrite !rbp_main_run. unfold loaded, warnings.
    change (rbp_export_ifc.params_path (with_files fs inv))
      with (rbp_export_ifc.params_path inv).
    change (files (with_files fs inv)) with fs.
    rewrite Ha, Hb. symmetry. now apply pipeline_same_fields.
Qed.

(** ** An empty output argument, and running twice *)

Lemma positional_cons (script : string) (args : list string) (inv : Invocation) :
  positional (with_argv (script :: args) inv)
  = filter (fun arg => negb (String.prefix "--" arg)) args.
Proof.
  unfold positional, export_ifc.script_args. simpl.
  destruct args; reflexivity.
Qed.

(** X13.  The script tests [if output_path:], so an empty second
    positional argument is no output path: the run is the one with that
    argument left away, and the sidecar and the defaults decide the
    output directory and name. *)
Theorem empty_output_argument_is_ignored (inv : Invocation) (script input : string)
        (w : World) :
  positional inv = [input; ""] ->
  explicit_output inv = None
  /\ export_ifc.main inv w = export_ifc.main (with_argv [script; input] inv) w.
Proof.
  intros Hpos. split.
  - unfold explicit_output. now rewrite Hpos.
  - assert (Hpos' : positional (with_argv [script; input] inv)
                    = if String.prefix "--" input then [] else [input])
      by (rewrite positional_cons; simpl; now destruct (String.prefix "--" input)).
    assert (Hflag : String.prefix "--" input = false).
    { assert (Hin : In input (positional inv)) by (rewrite Hpos; now left).
      unfold positional in Hin. apply filter_In in Hin.
      now apply negb_true_iff. }
    rewrite Hflag in Hpos'.
    assert (Hin : export_ifc.input_path (with_argv [script; input] inv)
                  = export_ifc.input_path inv)
      by (rewrite !input_path_positional, Hpos, Hpos'; reflexivity).
    rewrite !export_ifc_main_run.
    unfold export_ifc_loaded, export_ifc_warnings, export_ifc.params_path.
    rewrite !output_path_positional, Hpos, Hpos', Hin.
    reflexivity.
Qed.

Lemma export_ifc_main_from (inv : Invocation) (w : World) :
  sidecar_ok (files inv) (export_ifc.params_path inv) = true ->
  working w = None ->
  export_ifc.main inv w
  = (Ok tt,
     mkWorld (stdout w
              ++ export_ifc_warnings inv
              ++ report (host inv) (persisted w) (export_ifc.input_path inv)
                        (export_ifc.input_path inv) (export_ifc.output_path inv)
                        (export_ifc_loaded inv))
             (persisted w) None (final_status (host inv))
             (exports w
              ++ calls_of (host inv)
                   (resolved_dir (export_ifc_loaded inv) (export_ifc.input_path inv)
                                 (export_ifc.output_path inv))
                   (resolved_name (export_ifc_loaded inv) (export_ifc.input_path inv)
                                  (export_ifc.output_path inv))
                   (resolved_options (export_ifc_loaded inv)))).
Proof.
  intros Hok Hw.
  rewrite export_ifc_main_run, py_or_input_path.
  rewrite pipeline_well_typed;
    [ | now apply export_ifc_loaded_ok | exact Hw].
  simpl. now rewrite <- app_assoc.
Qed.

Lemma rbp_main_from (inv : Invocation) (w : World) :
  sidecar_ok (files inv) (rbp_export_ifc.params_path inv) = true ->
  working w = None ->
  rbp_export_ifc.main inv w
  = (Ok tt,
     mkWorld (stdout w
              ++ warnings (files inv) (rbp_export_ifc.params_path inv)
              ++ report (host inv) (persisted w) (PathName inv) (PathName inv) None
                        (loaded (files inv) (rbp_export_ifc.params_path inv)))
             (persisted w) None (final_status (host inv))
             (exports w
              ++ calls_of (host inv)
                   (resolved_dir (loaded (files inv) (rbp_export_ifc.params_path inv))
                                 (PathName inv) None)
                   (resolved_name (loaded (files inv) (rbp_export_ifc.params_path inv))
                                  (PathName inv) None)
                   (resolved_options
                      (loaded (files inv) (rbp_export_ifc.params_path inv))))).
Proof.
  intros Hok Hw.
  rewrite rbp_main_run.
  rewrite pipeline_well_typed;
    [ | now apply sidecar_ok_loaded | exact Hw].
  simpl. now rewrite <- app_assoc.
Qed.

(** X14.  Because the transaction is rolled back, a run leaves the
    document ready for the next one: on a documented sidecar, running a
    script a second time on what the first run left behind ends normally,
    prints the same lines again, makes the same export call again, and
    leaves the saved model as it was before the first run. *)
Theorem second_run_repeats_the_first (inv : Invocation) (m : Model) :
  (sidecar_ok (files inv) (export_ifc.params_path inv) = true ->
   let first := export_ifc.main inv (initial m) in
   let second := export_ifc.main inv (snd first) in
   fst second = Ok tt
   /\ stdout (snd second) = stdout (snd first) ++ stdout (snd first)
   /\ exports (snd second) = exports (snd first) ++ exports (snd first)
   /\ persisted (snd second) = m)
  /\ (sidecar_ok (files inv) (rbp_export_ifc.params_path inv) = true ->
      let first := rbp_export_ifc.main inv (initial m) in
      let second := rbp_export_ifc.main inv (snd first) in
      fst second = Ok tt
      /\ stdout (snd second) = stdout (snd first) ++ stdout (snd first)
      /\ exports (snd second) = exports (snd first) ++ exports (snd first)
      /\ persisted (snd second) = m).
Proof.
  split; intros Hok first second; subst first second.
  - rewrite (export_ifc_main_from inv (initial m) Hok eq_refl). simpl.
    rewrite export_ifc_main_from; [ | exact Hok | reflexivity]. simpl.
    repeat split.
  - rewrite (rbp_main_from inv (initial m) Hok eq_refl). simpl.
    rewrite rbp_main_from; [ | exact Hok | reflexivity]. simpl.
    repeat split.
Qed.

End Further.

(* ====================================================================== *)
(** * The further properties on sample invocations *)
(* ====================================================================== *)

(** X1 on an argument list with flags in between and a third path. *)
Lemma only_two_positionals_count_witness :
  positional (with_argv crowded_arguments numeric_name_explicit)
  = ["C:/jobs/a/design.rvt"; "C:/exports/out.ifc"; "C:/ignored.ifc"]
  /\ export_ifc.main (with_argv crowded_arguments numeric_name_explicit)
                     (initial ["Wall"])
     = export_ifc.main numeric_name_explicit (initial ["Wall"]).
Proof.
  split; [reflexivity | ].
  exact (only_two_positionals_count numeric_name_explicit crowded_arguments
           (initial ["Wall"]) eq_refl).
Defined.

(** X3 on an unreadable sidecar. *)
Lemma loader_never_raises_witness :
  exists v, fst (export_ifc.params scenario_C (initial ["Wall"])) = Ok v.
Proof.
  destruct (proj1 (loader_never_raises scenario_C (initial ["Wall"])))
    as (v & warn & H & _).
  exists v. now rewrite H.
Defined.

(** X4: a [params.json] in another directory changes nothing. *)
Lemma only_the_sidecar_is_read_witness :
  files_B_and_more "C:/elsewhere/params.json" = Some (Ok (VList []))
  /\ export_ifc.main (with_files files_B_and_more scenario_B) (initial ["Wall"])
     = export_ifc.main scenario_B (initial ["Wall"]).
Proof.
  split; [reflexivity | ].
  exact (proj1 (only_the_sidecar_is_read scenario_B files_B_and_more
                  (initial ["Wall"])) eq_refl).
Defined.

(** X5 on a sidecar that holds a JSON array. *)
Lemma non_object_sidecar_raises_witness :
  exists msg,
    rbp_export_ifc.main array_sidecar (initial ["Wall"])
    = (Raise (AttributeError msg), initial ["Wall"]).
Proof.
  assert (Hfile : files array_sidecar (rbp_export_ifc.params_path array_sidecar)
                  = Some (Ok (VList []))) by reflexivity.
  exact (proj2 (non_object_sidecar_raises array_sidecar ["Wall"] (VList []) eq_refl)
           Hfile).
Defined.

(** X6 on a sidecar with a list under [ifcVersion]. *)
Lemma unhashable_version_raises_witness :
  exists msg,
    export_ifc.main list_version (initial ["Wall"])
    = (Raise (TypeError msg), initial ["Wall"]).
Proof.
  assert (Hfile : files list_version (export_ifc.params_path list_version)
                  = Some (Ok (VDict [("ifcVersion", VList [VStr "IFC4"])])))
    by reflexivity.
  assert (Hpath : truthy (export_ifc.input_path list_version) = true)
    by reflexivity.
  exact (proj1 (unhashable_version_raises list_version ["Wall"]
                  [("ifcVersion", VList [VStr "IFC4"])] (VList [VStr "IFC4"])
                  eq_refl eq_refl) Hpath Hfile).
Defined.

(** X7 on a sidecar with the number 4 under [ifcVersion]. *)
Lemma non_string_version_witness :
  exists msg,
    export_ifc.main numeric_version (initial ["Wall"])
    = (Raise (TypeError msg),
       printed ["EXPORT_START"; "INPUT_PATH:C:/jobs/a/design.rvt";
                "OUTPUT_DIR:C:/jobs/a"; "OUTPUT_NAME:design.ifc"]
               (initial ["Wall"])).
Proof.
  assert (Hfile : files numeric_version (export_ifc.params_path numeric_version)
                  = Some (Ok (VDict [("ifcVersion", VInt 4)]))) by reflexivity.
  assert (Hpath : truthy (export_ifc.input_path numeric_version) = true)
    by reflexivity.
  exact (proj1 (proj2 (non_string_version_stops_the_header numeric_version ["Wall"]
                         [("ifcVersion", VInt 4)] (VInt 4)
                         eq_refl eq_refl eq_refl eq_refl eq_refl))
           Hpath Hfile).
Defined.

(** X8 on a sidecar with a number under [outputName], which stops the
    run when there is no explicit output path. *)
Lemma explicit_output_overrides_witness :
  explicit_output numeric_name_explicit = Some "C:/exports/out.ifc"
  /\ fst (export_ifc.main numeric_name_explicit (initial ["Wall"])) = Ok tt
  /\ stdout (snd (export_ifc.main numeric_name_explicit (initial ["Wall"])))
     = ["EXPORT_START"; "INPUT_PATH:C:/jobs/a/design.rvt";
        "OUTPUT_DIR:C:/exports"; "OUTPUT_NAME:out.ifc"; "IFC_VERSION:IFC4";
        "EXPORT_RESULT:SUCCESS"; "OUTPUT_PATH:C:/exports/out.ifc"].
Proof.
  assert (Hp : explicit_output numeric_name_explicit = Some "C:/exports/out.ifc")
    by reflexivity.
  assert (Hl : export_ifc_loaded numeric_name_explicit
               = VDict [("outputName", VInt 7)]) by reflexivity.
  pose proof (explicit_output_overrides_any_sidecar_location
                numeric_name_explicit ["Wall"] [("outputName", VInt 7)]
                "C:/exports/out.ifc" Hp Hl eq_refl eq_refl eq_refl) as H.
  split; [exact Hp | ].
  rewrite H. split; reflexivity.
Defined.


(** X10 on scenario B. *)
Lemma exported_location_witness :
  exports (snd (rbp_export_ifc.main scenario_B (initial ["Wall"])))
  = [mkCall (VStr "C:/jobs/a") (VStr "out.ifc")
            (mkOptions IFC2x3CV2 (VBool false) (VBool true) fixed_options)]
  /\ In "OUTPUT_DIR:C:/jobs/a"
        (stdout (snd (rbp_export_ifc.main scenario_B (initial ["Wall"])))).
Proof.
  assert (Hin : In (mkCall (VStr "C:/jobs/a") (VStr "out.ifc")
                           (mkOptions IFC2x3CV2 (VBool false) (VBool true)
                                      fixed_options))
                   (exports (snd (rbp_export_ifc.main scenario_B (initial ["Wall"])))))
    by (left; reflexivity).
  destruct (proj2 (exported_location_is_the_reported_one scenario_B ["Wall"] _) Hin)
    as (Hone & _ & dir & name & Hdir & _ & Hline & _).
  split; [exact Hone | ].
  simpl in Hdir. injection Hdir as <-. exact Hline.
Defined.

(** X11 on scenario B with a document that refuses the transaction. *)
Lemma refused_transaction_witness :
  accepts_transaction (host refused_B) = false
  /\ exports (snd (export_ifc.main refused_B (initial ["Wall"]))) = []
  /\ fst (export_ifc.main refused_B (initial ["Wall"])) = Ok tt.
Proof.
  destruct (refused_transaction_is_reported refused_B ["Wall"] eq_refl)
    as ((Hcalls & _) & Hrun & _).
  split; [reflexivity | split; [exact Hcalls | ]].
  exact (proj1 (Hrun eq_refl)).
Defined.

(** X12: the sidecar that spells the defaults out and adds a key of its
    own runs like the empty sidecar. *)
Lemma run_depends_on_five_fields_witness :
  export_ifc.main (with_files (one_file "C:/jobs/a/params.json" (Ok (VDict [])))
                              spelled_out)
                  (initial ["Wall"])
  = export_ifc.main spelled_out (initial ["Wall"]).
Proof.
  assert (Hpath : truthy (export_ifc.input_path spelled_out) = true)
    by reflexivity.
  assert (Ha : files spelled_out (export_ifc.params_path spelled_out)
               = Some (Ok (VDict [("ifcVersion", VStr "IFC4");
                                  ("wallSplitting", VBool false);
                                  ("exportBaseQuantities", VBool true);
                                  ("outputDir", VStr "C:/jobs/a");
                                  ("outputName", VStr "design.ifc");
                                  ("SitePlacement", VStr "1")])))
    by reflexivity.
  assert (Hb : one_file "C:/jobs/a/params.json" (Ok (VDict []))
                        (export_ifc.params_path spelled_out)
               = Some (Ok (VDict []))) by reflexivity.
  apply (proj1 (run_depends_on_five_fields spelled_out _ _ _ (initial ["Wall"]))
           Hpath Ha Hb).
  repeat split.
Defined.

(** X13 on an empty third argument next to a sidecar that names the
    output. *)
Lemma empty_output_argument_witness :
  positional empty_output_argument = ["C:/jobs/a/design.rvt"; ""]
  /\ export_ifc.main empty_output_argument (initial ["Wall"])
     = export_ifc.main
         (with_argv ["export_ifc.py"; "C:/jobs/a/design.rvt"] empty_output_argument)
         (initial ["Wall"]).
Proof.
  split; [reflexivity | ].
  exact (proj2 (empty_output_argument_is_ignored empty_output_argument
                  "export_ifc.py" "C:/jobs/a/design.rvt" (initial ["Wall"])
                  eq_refl)).
Defined.

(** X14 on scenario B. *)
Lemma second_run_witness :
  sidecar_ok (files scenario_B) (export_ifc.params_path scenario_B) = true
  /\ stdout (snd (export_ifc.main scenario_B
                    (snd (export_ifc.main scenario_B (initial ["Wall"])))))
     = stdout (snd (export_ifc.main scenario_B (initial ["Wall"])))
       ++ stdout (snd (export_ifc.main scenario_B (initial ["Wall"]))).
Proof.
  assert (Hok : sidecar_ok (files scenario_B) (export_ifc.params_path scenario_B)
                = true) by reflexivity.
  split; [exact Hok | ].
  destruct (proj1 (second_run_repeats_the_first scenario_B ["Wall"]) Hok)
    as (_ & Hout & _).
  exact Hout.
Defined.
